(** * Pokemon Egg Tries for Shiny: the tracker state model of [main.py]

    A shallow embedding of the non-GUI logic of [src/main.py]:
    the tracker ([PokemonTracker]), the tab ([PokemonTab]), the
    application's notebook ([App]), saving ([get_data]) and loading
    ([_create_and_add_tab], [load_tab_from_file],
    [load_all_tabs_on_startup]) and the file name derivation
    ([_get_filename_for_tab]).

    Conventions.
    - A Python [str] is a Rocq [string]; each [ascii] is read as the code
      point of the same number (U+0000 .. U+00FF).  The character classes
      of [re] and [str] below are Python 3's on that range, and every
      operation used by the program maps such strings to such strings.
    - A Python [int] is a [Z].
    - A Tk variable ([StringVar], [IntVar], [BooleanVar]) is a record field
      and a method is a function from the record to the updated record.
    - A parsed JSON object is a record with one optional field per key the
      program reads ([None]: the key is absent). *)

From Stdlib Require Import ZArith List Bool Lia Ascii String.
From Stdlib Require Decimal DecimalString DecimalZ DecimalPos.
Import ListNotations.

#[local] Open Scope string_scope.
#[local] Open Scope Z_scope.

(** ** Characters and the string methods the program calls *)

Module PyStr.

Definition code (c : ascii) : N := N_of_ascii c.

Definition in_range (lo hi : N) (c : ascii) : bool :=
  (N.leb lo (code c) && N.leb (code c) hi)%bool.

(** Line feed, the one character the regular expression [.] refuses. *)
Definition LF : ascii := ascii_of_N 10.

(** [\d] of [re] on [str] patterns: the decimal digits. *)
Definition is_digit (c : ascii) : bool := in_range 48 57 c.

(** [str.isalnum] for one character: letters, digits and the numeric
    characters of U+0080 .. U+00FF. *)
Definition is_alnum (c : ascii) : bool :=
  (in_range 48 57 c || in_range 65 90 c || in_range 97 122 c
   || in_range 170 170 c || in_range 178 179 c || in_range 181 181 c
   || in_range 185 186 c || in_range 188 190 c
   || in_range 192 214 c || in_range 216 246 c || in_range 248 255 c)%bool.

(** [str.isspace] for one character, which is what [str.strip()] removes. *)
Definition is_space (c : ascii) : bool :=
  (in_range 9 13 c || in_range 28 32 c || in_range 133 133 c
   || in_range 160 160 c)%bool.

(** [str.lower] for one character. *)
Definition lower_char (c : ascii) : ascii :=
  if (in_range 65 90 c || in_range 192 214 c || in_range 216 222 c)%bool
  then ascii_of_N (code c + 32)
  else c.

Fixpoint map_chars (f : ascii -> ascii) (s : string) : string :=
  match s with
  | EmptyString => EmptyString
  | String c s' => String (f c) (map_chars f s')
  end.

(** [s.lower()] *)
Definition lower (s : string) : string := map_chars lower_char s.

(** [s.lstrip()] *)
Fixpoint lstrip (s : string) : string :=
  match s with
  | EmptyString => EmptyString
  | String c s' => if is_space c then lstrip s' else s
  end.

(** [s.rstrip()] *)
Fixpoint rstrip (s : string) : string :=
  match s with
  | EmptyString => EmptyString
  | String c s' =>
      match rstrip s' with
      | EmptyString => if is_space c then EmptyString else String c EmptyString
      | r => String c r
      end
  end.

(** [s.strip()] *)
Definition strip (s : string) : string := rstrip (lstrip s).

(** [s.replace(old, new)] for a one-character [old]. *)
Fixpoint replace (old : ascii) (new : string) (s : string) : string :=
  match s with
  | EmptyString => EmptyString
  | String c s' =>
      if Ascii.eqb c old then new ++ replace old new s'
      else String c (replace old new s')
  end.

(** [s.startswith(p)] *)
Definition startswith (p s : string) : bool := String.prefix p s.

(** [s.endswith(p)] *)
Definition endswith (p s : string) : bool :=
  (Nat.leb (String.length p) (String.length s)
   && String.eqb (String.substring (String.length s - String.length p)
                                   (String.length p) s) p)%bool.

(** [str(n)] for an [int], as the f-string [{count}] renders it. *)
Definition str_of_int (n : Z) : string := DecimalString.NilZero.string_of_int (Z.to_int n).

(** [int(s)] on a run of decimal digits, the only argument the program
    passes; [None] stands for [ValueError]. *)
Definition int_of_str (s : string) : option Z :=
  match s with
  | EmptyString => None
  | _ => option_map Z.of_uint (DecimalString.NilEmpty.uint_of_string s)
  end.

End PyStr.

(** ** The fragment of [re] the program uses

    Two patterns occur in [main.py]:
    the one of line 80, searched in a label (the literal [Shiny ], a
    group of a greedy star of [.], the literal [ obtained in ], a group of
    a greedy plus of [\d]), and the one of line 222, substituted in a tab
    name (the set of what is neither [\w], [-], [_], [.] nor a space).  The engine below is a
    backtracking matcher for sequences of literals and greedy capturing
    groups over a single-character atom, which is all both need. *)

Module Re.

(** What may stand inside a bracketed set. *)
Inductive cls : Type :=
  | Word                   (* \w *)
  | Digit                  (* \d *)
  | Chr (c : ascii).       (* a literal or escaped character *)

(** Single-character atoms. *)
Inductive atom : Type :=
  | Dot                    (* .  : anything but a line feed *)
  | Cls (k : cls)
  | NoneOf (l : list cls). (* [^...] *)

(** Pattern nodes; a pattern is their sequence. *)
Inductive node : Type :=
  | Lit (s : string)
  | GroupStar (a : atom)   (* a capturing group of a greedy star *)
  | GroupPlus (a : atom).  (* a capturing group of a greedy plus *)

Definition pattern : Type := list node.

Definition cls_matches (k : cls) (c : ascii) : bool :=
  match k with
  | Word => (PyStr.is_alnum c || Ascii.eqb c "_")%bool
  | Digit => PyStr.is_digit c
  | Chr d => Ascii.eqb c d
  end.

Definition atom_matches (a : atom) (c : ascii) : bool :=
  match a with
  | Dot => negb (Ascii.eqb c PyStr.LF)
  | Cls k => cls_matches k c
  | NoneOf l => negb (existsb (fun k => cls_matches k c) l)
  end.

(** [strip_prefix l s]: the rest of [s] after the literal [l], if [s]
    starts with it. *)
Fixpoint strip_prefix (l s : string) : option string :=
  match l with
  | EmptyString => Some s
  | String a l' =>
      match s with
      | EmptyString => None
      | String b s' => if Ascii.eqb a b then strip_prefix l' s' else None
      end
  end.

(** A greedy repetition followed by the continuation [k]: take one more
    character first and only when the rest then fails, stop here.  The
    result is the text the repetition consumed and the groups of [k]. *)
Fixpoint greedy (f : ascii -> bool) (k : string -> option (list string))
    (s : string) : option (string * list string) :=
  match s with
  | EmptyString => option_map (pair EmptyString) (k s)
  | String c s' =>
      if f c then
        match greedy f k s' with
        | Some (g, caps) => Some (String c g, caps)
        | None => option_map (pair EmptyString) (k s)
        end
      else option_map (pair EmptyString) (k s)
  end.

(** Match the pattern at the start of [s]; the groups in order. *)
Fixpoint match_here (p : pattern) : string -> option (list string) :=
  match p with
  | [] => fun _ => Some []
  | Lit l :: p' =>
      fun s =>
        match strip_prefix l s with
        | Some s' => match_here p' s'
        | None => None
        end
  | GroupStar a :: p' =>
      fun s =>
        match greedy (atom_matches a) (match_here p') s with
        | Some (g, caps) => Some (g :: caps)
        | None => None
        end
  | GroupPlus a :: p' =>
      fun s =>
        match s with
        | EmptyString => None
        | String c s' =>
            if atom_matches a c then
              match greedy (atom_matches a) (match_here p') s' with
              | Some (g, caps) => Some (String c g :: caps)
              | None => None
              end
            else None
        end
  end.

(** [re.search(p, s)]: the match at the leftmost position that has one;
    [None] when no position has. *)
Fixpoint search (p : pattern) (s : string) : option (list string) :=
  match match_here p s with
  | Some caps => Some caps
  | None =>
      match s with
      | EmptyString => None
      | String _ s' => search p s'
      end
  end.

(** [match.group(i)] for [i >= 1]. *)
Definition group (m : list string) (i : nat) : string :=
  nth (i - 1) m EmptyString.

(** [re.sub(a, repl, s)] for a pattern that is one atom. *)
Fixpoint sub (a : atom) (repl : string) (s : string) : string :=
  match s with
  | EmptyString => EmptyString
  | String c s' =>
      if atom_matches a c then repl ++ sub a repl s'
      else String c (sub a repl s')
  end.

End Re.

(** ** Saved documents

    The object [json.load] returns for a tab file, and [get_data] builds:
    every key the program reads is an optional field. *)

Record tracker_obj : Type := mkTrackerObj {
  j_name : option string;
  j_count : option Z;
  j_obtained : option bool
}.

Record tab_obj : Type := mkTabObj {
  j_tab_name : option string;
  j_trackers : option (list tracker_obj)
}.

(** [d.get(key, default)] *)
Definition dict_get {A : Type} (field : option A) (default : A) : A :=
  match field with
  | Some v => v
  | None => default
  end.

(** [key in d] *)
Definition dict_has {A : Type} (field : option A) : bool :=
  match field with
  | Some _ => true
  | None => false
  end.

(** Truth value of a tab object: a [dict] is false exactly when it has no
    key.  Keys other than the two the program reads are not represented;
    the only test of this value is in conjunction with the presence of
    [trackers], which such keys cannot change. *)
Definition dict_truthy (d : tab_obj) : bool :=
  (dict_has (j_tab_name d) || dict_has (j_trackers d))%bool.

(** The list comprehension [[f(x) for x in l]] for an [f] that may raise. *)
Fixpoint map_raise {A B : Type} (f : A -> option B) (l : list A)
  : option (list B) :=
  match l with
  | [] => Some []
  | x :: l' =>
      match f x with
      | Some y =>
          match map_raise f l' with
          | Some ys => Some (y :: ys)
          | None => None
          end
      | None => None
      end
  end.

(** The [state] option of a Tk widget. *)
Inductive widget_state : Type := normal | disabled | readonly.

(** ** [class PokemonTracker] *)

Module PokemonTracker.

Record t : Type := mk {
  name_var : string;
  count_var : Z;
  obtained_var : bool;
  name_entry : widget_state;
  btn_decrement : widget_state;
  btn_increment : widget_state;
  btn_got_it : widget_state;
  lbl_count_gridded : bool;
  style : string
}.

Definition set_name_var (self : t) (v : string) : t :=
  mk v (count_var self) (obtained_var self) (name_entry self)
     (btn_decrement self) (btn_increment self) (btn_got_it self)
     (lbl_count_gridded self) (style self).

Definition set_count_var (self : t) (v : Z) : t :=
  mk (name_var self) v (obtained_var self) (name_entry self)
     (btn_decrement self) (btn_increment self) (btn_got_it self)
     (lbl_count_gridded self) (style self).

Definition set_obtained_var (self : t) (v : bool) : t :=
  mk (name_var self) (count_var self) v (name_entry self)
     (btn_decrement self) (btn_increment self) (btn_got_it self)
     (lbl_count_gridded self) (style self).

(** [lock_as_obtained], lines 59-74. *)
Definition lock_as_obtained (self : t) : t :=
  let name := name_var self in
  let count := count_var self in
  let suffix := if count =? 1 then "try" else "tries" in
  let final_text :=
    "Shiny " ++ name ++ " obtained in " ++ PyStr.str_of_int count
      ++ " " ++ suffix ++ "!" in
  mk final_text (count_var self) (obtained_var self)
     readonly disabled disabled disabled false "Obtained.TFrame".

(** [__init__], lines 15-42.  The defaults of its keyword arguments are
    never used: the one caller, [add_tracker], passes all three. *)
Definition __init__ (name : string) (count : Z) (obtained : bool) : t :=
  let self := mk name count obtained normal normal normal normal true "" in
  if obtained_var self then lock_as_obtained self else self.

(** [increment_count], lines 44-46. *)
Definition increment_count (self : t) : t :=
  set_count_var self (count_var self + 1).

(** [decrement_count], lines 48-52. *)
Definition decrement_count (self : t) : t :=
  let current_count := count_var self in
  if current_count >? 0 then set_count_var self (current_count - 1)
  else self.

(** [mark_obtained], lines 54-57. *)
Definition mark_obtained (self : t) : t :=
  lock_as_obtained (set_obtained_var self true).

(** The pattern of line 80. *)
Definition obtained_re : Re.pattern :=
  [Re.Lit "Shiny "; Re.GroupStar Re.Dot; Re.Lit " obtained in ";
   Re.GroupPlus (Re.Cls Re.Digit)].

(** [get_data], lines 76-95.  [None] stands for a [ValueError] of [int];
    [get_data_returns] below shows that it is never raised. *)
Definition get_data (self : t) : option tracker_obj :=
  if obtained_var self then
    let text := name_var self in
    match Re.search obtained_re text with
    | Some m =>
        match PyStr.int_of_str (Re.group m 2) with
        | Some count =>
            Some (mkTrackerObj (Some (Re.group m 1)) (Some count)
                               (Some (obtained_var self)))
        | None => None
        end
    | None =>
        Some (mkTrackerObj (Some "Unknown") (Some (count_var self))
                           (Some (obtained_var self)))
    end
  else
    Some (mkTrackerObj (Some (name_var self)) (Some (count_var self))
                       (Some (obtained_var self))).

(** What the user can do to the widget.  The three buttons are bound to
    the methods at lines 28-31 and the entry to [name_var] at line 27; Tk
    runs the command of a button only when the button is not disabled, and
    lets the user change the text of an entry only in its normal state. *)
Inductive event : Type :=
  | press_decrement
  | press_increment
  | press_got_it
  | type_name (text : string).

Definition is_normal (w : widget_state) : bool :=
  match w with
  | normal => true
  | _ => false
  end.

Definition handle (e : event) (self : t) : t :=
  match e with
  | press_decrement =>
      if is_normal (btn_decrement self) then decrement_count self else self
  | press_increment =>
      if is_normal (btn_increment self) then increment_count self else self
  | press_got_it =>
      if is_normal (btn_got_it self) then mark_obtained self else self
  | type_name text =>
      if is_normal (name_entry self) then set_name_var self text else self
  end.

(** The trackers the program can hold: built by [__init__] and changed by
    user events only. *)
Inductive reachable : t -> Prop :=
  | reach_init (name : string) (count : Z) (obtained : bool) :
      reachable (__init__ name count obtained)
  | reach_event (e : event) (self : t) :
      reachable self -> reachable (handle e self).

End PokemonTracker.

(** ** [class PokemonTab] *)

Module PokemonTab.

Record t : Type := mk {
  tab_name : string;
  trackers : list PokemonTracker.t
}.

(** [__init__], lines 140-152. *)
Definition __init__ (tab_name : string) : t := mk tab_name [].

(** [add_tracker], lines 154-164. *)
Definition add_tracker (self : t) (name : string) (count : Z)
    (obtained : bool) : t :=
  let tracker := PokemonTracker.__init__ name count obtained in
  mk (tab_name self) (trackers self ++ [tracker]).

(** [get_data], lines 166-172. *)
Definition get_data (self : t) : option tab_obj :=
  match map_raise PokemonTracker.get_data (trackers self) with
  | Some tracker_data =>
      Some (mkTabObj (Some (tab_name self)) (Some tracker_data))
  | None => None
  end.

End PokemonTab.

(** ** [class App] *)

Module App.

Definition SAVE_DIRECTORY : string := "shiny_saves".

(** The notebook: its tabs in order, and the index of the selected one. *)
Record t : Type := mk {
  notebook : list PokemonTab.t;
  selected : option nat
}.

(** The window before [load_all_tabs_on_startup] runs (lines 181-212). *)
Definition empty : t := mk [] None.

(** [os.path.join(a, b)] of [posixpath]. *)
Definition os_path_join (a b : string) : string :=
  if PyStr.startswith "/" b then b
  else if (String.eqb a "" || PyStr.endswith "/" a)%bool then a ++ b
  else a ++ "/" ++ b.

(** The pattern of line 222. *)
Definition unsafe_re : Re.atom :=
  Re.NoneOf [Re.Word; Re.Chr "-"; Re.Chr "_"; Re.Chr "."; Re.Chr " "].

(** The local [safe_name] of [_get_filename_for_tab], lines 222-223. *)
Definition safe_name (tab_name : string) : string :=
  let safe_name := PyStr.strip (Re.sub unsafe_re "_" tab_name) in
  PyStr.replace " " "_" (PyStr.lower safe_name).

(** [_get_filename_for_tab], lines 220-224. *)
Definition _get_filename_for_tab (tab_name : string) : string :=
  os_path_join SAVE_DIRECTORY (safe_name tab_name ++ ".json").

(** The loop of lines 231-236. *)
Definition add_trackers (tab : PokemonTab.t) (l : list tracker_obj)
  : PokemonTab.t :=
  fold_left
    (fun tab tracker_data =>
       PokemonTab.add_tracker tab
         (dict_get (j_name tracker_data) "Error")
         (dict_get (j_count tracker_data) 0)
         (dict_get (j_obtained tracker_data) false))
    l tab.

(** [_create_and_add_tab], lines 226-240: the window with the new tab
    added and selected, and the tab. *)
Definition _create_and_add_tab (self : t) (name : string)
    (data : option tab_obj) : t * PokemonTab.t :=
  let tab := PokemonTab.__init__ name in
  let tab :=
    match data with
    | Some d =>
        if (dict_truthy d && dict_has (j_trackers d))%bool
        then add_trackers tab (dict_get (j_trackers d) [])
        else tab
    | None => tab
    end in
  (mk (notebook self ++ [tab]) (Some (List.length (notebook self))), tab).

(** How a load ended. *)
Inductive outcome : Type :=
  | cancelled
  | loaded
  | already_open (tab_name : string)
  | load_error.

(** Index of the first open tab with this name (the loop of lines
    321-326). *)
Fixpoint find_open (tab_name : string) (tabs : list PokemonTab.t) (i : nat)
  : option nat :=
  match tabs with
  | [] => None
  | tab :: rest =>
      if String.eqb (PokemonTab.tab_name tab) tab_name then Some i
      else find_open tab_name rest (S i)
  end.

(** [load_tab_from_file], lines 302-331.  [picked] is what the dialog and
    the file gave: [None] when the dialog was cancelled, [Some None] when
    opening or parsing the file raised, [Some (Some data)] otherwise. *)
Definition load_tab_from_file (self : t) (picked : option (option tab_obj))
  : t * outcome :=
  match picked with
  | None => (self, cancelled)
  | Some None => (self, load_error)
  | Some (Some data) =>
      let tab_name := dict_get (j_tab_name data) "Untitled" in
      match find_open tab_name (notebook self) 0 with
      | Some i => (mk (notebook self) (Some i), already_open tab_name)
      | None => (fst (_create_and_add_tab self tab_name (Some data)), loaded)
      end
  end.

(** [load_all_tabs_on_startup], lines 333-345.  [listing] is the save
    directory: each file name with what parsing it gives ([None] when it
    raises).  The result is the window and the files reported as failed. *)
Fixpoint load_all_tabs_on_startup (self : t)
    (listing : list (string * option tab_obj)) : t * list string :=
  match listing with
  | [] => (self, [])
  | (f, content) :: rest =>
      if PyStr.endswith ".json" f then
        let filepath := os_path_join SAVE_DIRECTORY f in
        match content with
        | Some data =>
            let tab_name := dict_get (j_tab_name data) "Error Loading" in
            load_all_tabs_on_startup
              (fst (_create_and_add_tab self tab_name (Some data))) rest
        | None =>
            let (self', failed) := load_all_tabs_on_startup self rest in
            (self', filepath :: failed)
        end
      else load_all_tabs_on_startup self rest
  end.

(** [add_tab], lines 242-250.  [answer] is what the dialog returned,
    [None] when it was cancelled; an empty string is as false as [None]. *)
Definition add_tab (self : t) (answer : option string) : t :=
  match answer with
  | Some name =>
      if String.eqb name "" then self
      else fst (_create_and_add_tab self name None)
  | None => self
  end.

(** *** The save directory

    The files directly inside [SAVE_DIRECTORY]: the name of each, as
    [os.listdir] gives it, with what [json.load] returns on the file
    ([None] when opening or parsing it raises).  Names are distinct; the
    order of the list stands for the order of [os.listdir]. *)
Definition disk : Type := list (string * option tab_obj).

Fixpoint disk_lookup (name : string) (d : disk) : option (option tab_obj) :=
  match d with
  | [] => None
  | (f, content) :: rest =>
      if String.eqb f name then Some content else disk_lookup name rest
  end.

(** The file [name] now holds [content]: replaced where it stands, or
    added. *)
Fixpoint disk_write (name : string) (content : option tab_obj) (d : disk)
  : disk :=
  match d with
  | [] => [(name, content)]
  | (f, c) :: rest =>
      if String.eqb f name then (f, content) :: rest
      else (f, c) :: disk_write name content rest
  end.

Fixpoint disk_remove (name : string) (d : disk) : disk :=
  match d with
  | [] => []
  | (f, c) :: rest =>
      if String.eqb f name then disk_remove name rest
      else (f, c) :: disk_remove name rest
  end.

Fixpoint has_slash (s : string) : bool :=
  match s with
  | EmptyString => false
  | String c s' => (Ascii.eqb c "/" || has_slash s')%bool
  end.

(** The name in the save directory that a path denotes, when the path is
    [SAVE_DIRECTORY], a slash and a name without slash.  The program only
    builds paths with [_get_filename_for_tab]. *)
Definition entry_of (path : string) : option string :=
  match Re.strip_prefix (SAVE_DIRECTORY ++ "/") path with
  | Some name =>
      if (String.eqb name "" || has_slash name)%bool then None
      else Some name
  | None => None
  end.

(** [os.path.exists(filename)] *)
Definition os_path_exists (d : disk) (filename : string) : bool :=
  match entry_of filename with
  | Some name => dict_has (disk_lookup name d)
  | None => false
  end.

(** [open(filename, 'w')] followed by [json.dump(data, f, indent=4)]
    (lines 292-293 and 355-356): afterwards the file parses to [data].
    [refuses] tells the paths the system will not open for writing; then
    [open] raises ([None]) and nothing is written. *)
Definition write_json (d : disk) (refuses : string -> bool)
    (filename : string) (data : tab_obj) : option disk :=
  if refuses filename then None
  else
    match entry_of filename with
    | Some name => Some (disk_write name (Some data) d)
    | None => Some d
    end.

(** [os.remove(filename)] on a file that exists. *)
Definition os_remove (d : disk) (filename : string) : disk :=
  match entry_of filename with
  | Some name => disk_remove name d
  | None => d
  end.

Inductive save_outcome : Type :=
  | no_tab_to_save          (* showwarning, line 285 *)
  | tab_to_save_not_found   (* showwarning, line 298 *)
  | saved (tab_name : string)  (* showinfo, line 295 *)
  | save_error.             (* showerror, line 300 *)

(** [save_current_tab], lines 280-300: the directory afterwards and the
    message shown.  The window is not changed. *)
Definition save_current_tab (self : t) (d : disk) (refuses : string -> bool)
  : disk * save_outcome :=
  match selected self with
  | None => (d, no_tab_to_save)
  | Some current_tab_id =>
      match nth_error (notebook self) current_tab_id with
      | None => (d, tab_to_save_not_found)
      | Some tab_widget =>
          match PokemonTab.get_data tab_widget with
          | None => (d, save_error)
          | Some data =>
              let filename :=
                _get_filename_for_tab (PokemonTab.tab_name tab_widget) in
              match write_json d refuses filename data with
              | Some d' => (d', saved (PokemonTab.tab_name tab_widget))
              | None => (d, save_error)
              end
          end
      end
  end.




Inductive remove_outcome : Type :=
  | no_tab_to_remove          (* showwarning, line 257 *)
  | tab_to_remove_not_found   (* showwarning, line 278 *)
  | remove_declined
  | removed
  | removed_but_file_kept.    (* showerror, line 273 *)

(** [remove_current_tab], lines 252-278.  [confirm] is the user's reply,
    [refuses] tells the paths the system will not delete ([OSError]), and
    [then_selected] is the tab the notebook widget makes current once the
    tab is forgotten, which is the widget's choice. *)
Definition remove_current_tab (self : t) (d : disk) (confirm : bool)
    (refuses : string -> bool) (then_selected : option nat)
  : t * disk * remove_outcome :=
  match selected self with
  | None => (self, d, no_tab_to_remove)
  | Some current_tab_id =>
      match nth_error (notebook self) current_tab_id with
      | None => (self, d, tab_to_remove_not_found)
      | Some tab_widget =>
          if confirm then
            let filename :=
              _get_filename_for_tab (PokemonTab.tab_name tab_widget) in
            let forgotten :=
              mk (firstn current_tab_id (notebook self)
                    ++ skipn (S current_tab_id) (notebook self))
                 then_selected in
            if os_path_exists d filename then
              if refuses filename then (forgotten, d, removed_but_file_kept)
              else (forgotten, os_remove d filename, removed)
            else (forgotten, d, removed)
          else (self, d, remove_declined)
      end
  end.

(** [__init__], lines 181-218: the window once the saves are loaded, and
    the files reported as failed. *)
Definition __init__ (d : disk) : t * list string :=
  load_all_tabs_on_startup empty d.

End App.

(** ** The user's other actions and the two directions of persistence *)

(** The "Add Pokemon Tracker" button, line 148: [add_tracker] with its
    defaults. *)
Definition press_add_tracker (tab : PokemonTab.t) : PokemonTab.t :=
  PokemonTab.add_tracker tab "New Pokemon" 0 false.

(** Saving a tab is [PokemonTab.get_data] (lines 289 and 353). *)
Definition serialize (tab : PokemonTab.t) : option tab_obj :=
  PokemonTab.get_data tab.

(** Loading a document through [load_tab_from_file]: the tab it builds
    (lines 318 and 328). *)
Definition deserialize (data : tab_obj) : PokemonTab.t :=
  snd (App._create_and_add_tab App.empty
         (dict_get (j_tab_name data) "Untitled") (Some data)).

(** The tracker that lines 232-236 build from one record of a document. *)
Definition restored (r : tracker_obj) : PokemonTracker.t :=
  PokemonTracker.__init__ (dict_get (j_name r) "Error")
    (dict_get (j_count r) 0) (dict_get (j_obtained r) false).

(** A document of the persisted format: both keys, and in each tracker
    all three keys with a count that is not negative. *)
Definition well_formed_tracker (r : tracker_obj) : Prop :=
  (exists n, j_name r = Some n) /\
  (exists c, j_count r = Some c /\ 0 <= c) /\
  (exists o, j_obtained r = Some o).

Definition well_formed (d : tab_obj) : Prop :=
  (exists n, j_tab_name d = Some n) /\
  (exists l, j_trackers d = Some l /\ Forall well_formed_tracker l).

(** Increment and decrement requests, and their replay on a tracker. *)
Inductive op : Type := Inc | Dec.

Definition apply_op (t : PokemonTracker.t) (o : op) : PokemonTracker.t :=
  match o with
  | Inc => PokemonTracker.increment_count t
  | Dec => PokemonTracker.decrement_count t
  end.

Definition replay (ops : list op) (t : PokemonTracker.t) : PokemonTracker.t :=
  fold_left apply_op ops t.

(** ** The specification's wording, for comparison with the code *)

Module Spec.

(** "the arithmetic sum of +1/-1 steps clamped at 0 after each step" *)
Definition step (o : op) : Z :=
  match o with
  | Inc => 1
  | Dec => -1
  end.

Definition clamped_sum (a : Z) (ops : list op) : Z :=
  fold_left (fun acc o => Z.max 0 (acc + step o)) ops a.

(** "alphanumeric, underscore, hyphen, dot, or space" *)
Definition kept (c : ascii) : bool :=
  (PyStr.is_alnum c || Ascii.eqb c "_" || Ascii.eqb c "-"
   || Ascii.eqb c "." || Ascii.eqb c " ")%bool.

(** "replace every character that is not ... with an underscore" *)
Definition scrub (c : ascii) : ascii := if kept c then c else "_"%char.

Fixpoint drop_spaces (l : list ascii) : list ascii :=
  match l with
  | [] => []
  | c :: l' => if PyStr.is_space c then drop_spaces l' else l
  end.

(** "trim leading/trailing whitespace" *)
Definition trim (l : list ascii) : list ascii :=
  rev (drop_spaces (rev (drop_spaces l))).

(** "replace internal spaces with underscores" *)
Definition unspace (c : ascii) : ascii :=
  if Ascii.eqb c " " then "_"%char else c.

(** The four steps of "derive storage key", in the order of the text. *)
Definition derive_storage_key (name : string) : string :=
  string_of_list_ascii
    (map unspace
       (map PyStr.lower_char
          (trim (map scrub (list_ascii_of_string name))))).

End Spec.

(** ** Predicates used in the statements about the search of line 80 *)

(** Every character of [s] satisfies [f]. *)
Fixpoint all_chars (f : ascii -> bool) (s : string) : bool :=
  match s with
  | EmptyString => true
  | String c s' => (f c && all_chars f s')%bool
  end.

(** No line feed in [s]: what [.] can run over. *)
Definition one_line (s : string) : bool :=
  all_chars (Re.atom_matches Re.Dot) s.

(** [s] is empty or starts with a character outside [f]: a repetition of
    [f] stops at once. *)
Definition stops (f : ascii -> bool) (s : string) : bool :=
  match s with
  | EmptyString => true
  | String c _ => negb (f c)
  end.

(** The continuation [k] fails at every position of [s]. *)
Fixpoint fails_everywhere (k : string -> option (list string)) (s : string)
  : bool :=
  match k s with
  | Some _ => false
  | None =>
      match s with
      | EmptyString => true
      | String _ s' => fails_everywhere k s'
      end
  end.

(** What follows the first group in the pattern of line 80. *)
Definition count_re : Re.pattern :=
  [Re.Lit " obtained in "; Re.GroupPlus (Re.Cls Re.Digit)].

(** ** Notions used in the statements about the rest of the program *)

(** A sequence of user events on one tracker. *)
Definition run_events (es : list PokemonTracker.event) (t : PokemonTracker.t)
  : PokemonTracker.t :=
  fold_left (fun t e => PokemonTracker.handle e t) es t.

(** A tracker as the constructor leaves it, with a count that is not
    negative and, when it is obtained, a name on one line. *)
Definition kept_exactly (t : PokemonTracker.t) : Prop :=
  exists (L : string) (n : Z) (o : bool),
    t = PokemonTracker.__init__ L n o /\ 0 <= n /\
    (o = true -> one_line L = true).

(** The current tab, when there is one, is a tab of the notebook. *)
Definition selection_valid (app : App.t) : Prop :=
  match App.selected app with
  | Some i => (i < List.length (App.notebook app))%nat
  | None => True
  end.

(** The tab the startup scan opens for a document (lines 342-343). *)
Definition startup_tab (data : tab_obj) : PokemonTab.t :=
  PokemonTab.mk (dict_get (j_tab_name data) "Error Loading")
    (map restored (dict_get (j_trackers data) [])).

(** The tabs a directory gives at startup, and the paths it reports. *)
Fixpoint startup_tabs (listing : App.disk) : list PokemonTab.t :=
  match listing with
  | [] => []
  | (f, content) :: rest =>
      match content with
      | Some data =>
          if PyStr.endswith ".json" f
          then startup_tab data :: startup_tabs rest
          else startup_tabs rest
      | None => startup_tabs rest
      end
  end.

Fixpoint startup_failures (listing : App.disk) : list string :=
  match listing with
  | [] => []
  | (f, content) :: rest =>
      match content with
      | Some _ => startup_failures rest
      | None =>
          if PyStr.endswith ".json" f
          then App.os_path_join App.SAVE_DIRECTORY f :: startup_failures rest
          else startup_failures rest
      end
  end.

(** The file name of a tab inside the save directory. *)
Definition entry_name (tab : PokemonTab.t) : string :=
  App.safe_name (PokemonTab.tab_name tab) ++ ".json".

(** Leading U+0020 characters dropped, and both ends. *)
Fixpoint drop_blanks (l : list ascii) : list ascii :=
  match l with
  | [] => []
  | c :: l' => if Ascii.eqb c " " then drop_blanks l' else l
  end.

Definition trim_blanks (l : list ascii) : list ascii :=
  rev (drop_blanks (rev (drop_blanks l))).

(** What one character of a name becomes in the key. *)
Definition key_of_char (c : ascii) : ascii :=
  Spec.unspace (PyStr.lower_char (Spec.scrub c)).


(** ** Decimal numerals *)

Section Strings.

Lemma uint_digits (d : Decimal.uint) :
  all_chars PyStr.is_digit (DecimalString.NilEmpty.string_of_uint d) = true.
Proof.
  induction d; simpl; auto.
Qed.

Lemma uint_of_digits (s : string) :
  all_chars PyStr.is_digit s = true ->
  exists d, DecimalString.NilEmpty.uint_of_string s = Some d.
Proof.
  induction s as [|c s IH]; simpl.
  - intros _. now exists Decimal.Nil.
  - intros H. apply andb_true_iff in H as [Hc Hs].
    destruct (IH Hs) as [d Hd]. rewrite Hd.
    destruct c as [[|] [|] [|] [|] [|] [|] [|] [|]];
      try discriminate Hc; simpl; eauto.
Qed.

(** [int] succeeds on every non-empty run of digits. *)
Lemma int_of_str_digits (c : ascii) (s : string) :
  all_chars PyStr.is_digit (String c s) = true ->
  exists n, PyStr.int_of_str (String c s) = Some n /\ 0 <= n.
Proof.
  intros H. destruct (uint_of_digits _ H) as [d Hd].
  unfold PyStr.int_of_str. rewrite Hd. simpl.
  eexists; split; [reflexivity|].
  unfold Z.of_uint. apply N2Z.is_nonneg.
Qed.

(** The numeral of a count that is not negative: digits only, at least
    one, and [int] reads the count back. *)
Lemma str_of_int_nonneg (n : Z) :
  0 <= n ->
  exists c s,
    PyStr.str_of_int n = String c s /\
    all_chars PyStr.is_digit (String c s) = true /\
    PyStr.int_of_str (String c s) = Some n.
Proof.
  intros Hn.
  assert (Hd : exists d, Z.to_int n = Decimal.Pos d /\ d <> Decimal.Nil).
  { destruct n as [|p|p]; simpl.
    - exists Decimal.zero. split; [reflexivity | discriminate].
    - exists (Pos.to_uint p). split; [reflexivity|].
      apply DecimalPos.Unsigned.to_uint_nonnil.
    - lia. }
  destruct Hd as [d [Hd Hnil]].
  assert (Hs : PyStr.str_of_int n = DecimalString.NilEmpty.string_of_uint d).
  { unfold PyStr.str_of_int. rewrite Hd. simpl.
    destruct d; [congruence | reflexivity..]. }
  assert (Hv : Z.of_uint d = n).
  { change (Z.of_uint d) with (Z.of_int (Decimal.Pos d)).
    rewrite <- Hd. apply DecimalZ.of_to. }
  destruct (DecimalString.NilEmpty.string_of_uint d) as [|c s] eqn:E.
  - destruct d; simpl in E; congruence.
  - exists c, s. split; [exact Hs|]. split.
    + rewrite <- E. apply uint_digits.
    + unfold PyStr.int_of_str. rewrite <- E, DecimalString.NilEmpty.usu. simpl.
      now rewrite Hv.
Qed.

End Strings.

(** ** The backtracking matcher *)

Section Matcher.

Variable f : ascii -> bool.
Variable k : string -> option (list string).

Lemma greedy_fails (s : string) :
  fails_everywhere k s = true -> Re.greedy f k s = None.
Proof.
  induction s as [|c s IH]; simpl.
  - destruct (k "") eqn:E; [discriminate | reflexivity].
  - destruct (k (String c s)) eqn:E; [discriminate|].
    intros H. rewrite (IH H). now destruct (f c).
Qed.

Lemma greedy_stops (s : string) :
  stops f s = true ->
  Re.greedy f k s = option_map (pair EmptyString) (k s).
Proof.
  destruct s as [|c s]; simpl; [reflexivity|].
  intros H. apply negb_true_iff in H. now rewrite H.
Qed.

Lemma greedy_backtracks (c : ascii) (s : string) :
  fails_everywhere k s = true ->
  Re.greedy f k (String c s) = option_map (pair EmptyString) (k (String c s)).
Proof.
  intros H. simpl. rewrite (greedy_fails s H). now destruct (f c).
Qed.

Lemma greedy_run (g rest : string) (caps : list string) :
  all_chars f g = true ->
  Re.greedy f k rest = Some (EmptyString, caps) ->
  Re.greedy f k (g ++ rest) = Some (g, caps).
Proof.
  intros Hg Hrest. induction g as [|c g IH]; simpl in *; [exact Hrest|].
  apply andb_true_iff in Hg as [Hc Hg].
  now rewrite Hc, (IH Hg).
Qed.

(** What a successful repetition returns: the run it consumed, and the
    groups of the continuation on the rest. *)
Lemma greedy_sound (s g : string) (caps : list string) :
  Re.greedy f k s = Some (g, caps) ->
  all_chars f g = true /\
  exists rest, s = g ++ rest /\ k rest = Some caps.
Proof.
  revert g. induction s as [|c s IH]; intros g; simpl.
  - destruct (k "") eqn:E; simpl; [|discriminate].
    intros [= <- <-]. split; [reflexivity|]. now exists "".
  - assert (Hstop : option_map (pair EmptyString) (k (String c s))
                    = Some (g, caps) ->
                    all_chars f g = true /\
                    exists rest, String c s = g ++ rest /\ k rest = Some caps).
    { destruct (k (String c s)) eqn:E; simpl; [|discriminate].
      intros [= <- <-]. split; [reflexivity|]. now exists (String c s). }
    destruct (f c) eqn:Hc; [|exact Hstop].
    destruct (Re.greedy f k s) as [[g' caps']|] eqn:E; [|exact Hstop].
    intros [= <- <-]. destruct (IH g' eq_refl) as [Hg' [rest [Hs Hk]]].
    split; [simpl; now rewrite Hc, Hg'|].
    exists rest. split; [simpl; now rewrite <- Hs | exact Hk].
Qed.

(** Backtracking finds a match whenever one way of splitting the text
    gives one. *)
Lemma greedy_complete (g rest : string) :
  all_chars f g = true ->
  k rest <> None ->
  Re.greedy f k (g ++ rest) <> None.
Proof.
  intros Hg Hk. induction g as [|c g IH].
  - cbn [append]. destruct rest as [|c s]; cbn [Re.greedy].
    + now destruct (k "").
    + destruct (f c); [destruct (Re.greedy f k s) as [[? ?]|]|];
        try discriminate; now destruct (k (String c s)).
  - cbn [all_chars] in Hg. apply andb_true_iff in Hg as [Hc Hg].
    cbn [append Re.greedy]. rewrite Hc.
    specialize (IH Hg).
    destruct (Re.greedy f k (g ++ rest)) as [[? ?]|]; [discriminate|].
    now elim IH.
Qed.

End Matcher.

Section Search.

Lemma strip_prefix_app (l s : string) : Re.strip_prefix l (l ++ s) = Some s.
Proof.
  induction l as [|a l IH]; simpl; [reflexivity|].
  now rewrite Ascii.eqb_refl.
Qed.

Lemma strip_prefix_sound (l s r : string) :
  Re.strip_prefix l s = Some r -> s = l ++ r.
Proof.
  revert s. induction l as [|a l IH]; intros s; simpl.
  - now intros [= <-].
  - destruct s as [|b s]; [discriminate|].
    destruct (Ascii.eqb_spec a b) as [<-|]; [|discriminate].
    intros H. now rewrite (IH _ H).
Qed.

Lemma match_here_lit (l : string) (p : Re.pattern) (s : string) :
  Re.match_here (Re.Lit l :: p) (l ++ s) = Re.match_here p s.
Proof.
  cbn [Re.match_here]. now rewrite strip_prefix_app.
Qed.

Lemma match_here_star (a : Re.atom) (p : Re.pattern) (s : string) :
  Re.match_here (Re.GroupStar a :: p) s
  = match Re.greedy (Re.atom_matches a) (Re.match_here p) s with
    | Some (g, caps) => Some (g :: caps)
    | None => None
    end.
Proof. reflexivity. Qed.

Lemma search_here (p : Re.pattern) (s : string) (m : list string) :
  Re.match_here p s = Some m -> Re.search p s = Some m.
Proof.
  intros H. destruct s; simpl; now rewrite H.
Qed.

Lemma search_sound (p : Re.pattern) (s : string) (m : list string) :
  Re.search p s = Some m ->
  exists before rest, s = before ++ rest /\ Re.match_here p rest = Some m.
Proof.
  induction s as [|c s IH]; simpl.
  - destruct (Re.match_here p "") eqn:E; [|discriminate].
    intros [= <-]. now exists "", "".
  - destruct (Re.match_here p (String c s)) eqn:E.
    + intros [= <-]. now exists "", (String c s).
    + intros H. destruct (IH H) as [before [rest [Hs Hm]]].
      exists (String c before), rest. split; [simpl; now rewrite Hs | exact Hm].
Qed.

(** The digits group: a run of digits followed by something else. *)
Lemma match_count (d : ascii) (ds tail : string) :
  all_chars PyStr.is_digit (String d ds) = true ->
  stops PyStr.is_digit tail = true ->
  Re.match_here count_re (" obtained in " ++ String d ds ++ tail)
  = Some [String d ds].
Proof.
  intros Hd Ht. unfold count_re.
  cbn [Re.match_here]. rewrite strip_prefix_app.
  simpl in Hd. apply andb_true_iff in Hd as [Hd Hds].
  cbn [append Re.atom_matches Re.cls_matches]. rewrite Hd.
  rewrite (greedy_run _ _ ds tail []); [reflexivity | exact Hds |].
  now rewrite greedy_stops.
Qed.

(** The second literal cannot start on a character that is not a space,
    nor on a space that a digit follows. *)
Lemma count_needs_space (c : ascii) (s : string) :
  Ascii.eqb " " c = false -> Re.match_here count_re (String c s) = None.
Proof.
  intros H. unfold count_re. cbn [Re.match_here Re.strip_prefix].
  now rewrite H.
Qed.

Lemma count_needs_o (c : ascii) (s : string) :
  Ascii.eqb "o" c = false ->
  Re.match_here count_re (String " " (String c s)) = None.
Proof.
  intros H. unfold count_re. cbn [Re.match_here Re.strip_prefix].
  rewrite Ascii.eqb_refl. now rewrite H.
Qed.

Lemma digit_not_space (c : ascii) :
  PyStr.is_digit c = true -> Ascii.eqb " " c = false.
Proof.
  destruct c as [[|] [|] [|] [|] [|] [|] [|] [|]];
    try discriminate; reflexivity.
Qed.

Lemma digit_not_o (c : ascii) :
  PyStr.is_digit c = true -> Ascii.eqb "o" c = false.
Proof.
  destruct c as [[|] [|] [|] [|] [|] [|] [|] [|]];
    try discriminate; reflexivity.
Qed.

Lemma fails_cons (k : string -> option (list string)) (c : ascii) (s : string) :
  k (String c s) = None -> fails_everywhere k s = true ->
  fails_everywhere k (String c s) = true.
Proof.
  intros Hk Hs. simpl. now rewrite Hk.
Qed.

Lemma fails_in_digits (ds tail : string) :
  all_chars PyStr.is_digit ds = true ->
  fails_everywhere (Re.match_here count_re) tail = true ->
  fails_everywhere (Re.match_here count_re) (ds ++ tail) = true.
Proof.
  intros Hd Ht. induction ds as [|c ds IH]; [exact Ht|].
  simpl in Hd. apply andb_true_iff in Hd as [Hc Hd].
  change (String c ds ++ tail) with (String c (ds ++ tail)).
  apply fails_cons; [|now apply IH].
  apply count_needs_space, digit_not_space, Hc.
Qed.

(** After the space that opens the second literal of a label, the rest of
    the label has no other place where that literal and a digit start. *)
Lemma fails_after_space (d : ascii) (ds tail : string) :
  all_chars PyStr.is_digit (String d ds) = true ->
  fails_everywhere (Re.match_here count_re) tail = true ->
  fails_everywhere (Re.match_here count_re)
    ("obtained in " ++ String d ds ++ tail) = true.
Proof.
  intros Hd Ht.
  pose proof (fails_in_digits _ _ Hd Ht) as Hrest.
  simpl in Hd. apply andb_true_iff in Hd as [Hd _].
  cbn [append] in *.
  repeat (apply fails_cons;
          [first [ apply count_needs_space; reflexivity
                 | apply count_needs_o; reflexivity
                 | apply count_needs_o, digit_not_o, Hd ] |]).
  exact Hrest.
Qed.

(** The search of line 80 on a label whose name has no line feed. *)
Lemma search_label (L : string) (d : ascii) (ds tail : string) :
  one_line L = true ->
  all_chars PyStr.is_digit (String d ds) = true ->
  stops PyStr.is_digit tail = true ->
  fails_everywhere (Re.match_here count_re) tail = true ->
  Re.search PokemonTracker.obtained_re
    ("Shiny " ++ L ++ " obtained in " ++ String d ds ++ tail)
  = Some [L; String d ds].
Proof.
  intros HL Hd Hstop Htail. apply search_here.
  pose proof (match_count d ds tail Hd Hstop) as Hcount.
  pose proof (fails_after_space d ds tail Hd Htail) as Hquiet.
  unfold PokemonTracker.obtained_re.
  rewrite match_here_lit, match_here_star.
  fold count_re.
  rewrite (greedy_run _ _ L _ [String d ds]); [reflexivity | exact HL |].
  cbn [append] in Hcount, Hquiet |- *.
  etransitivity; [apply greedy_backtracks, Hquiet|].
  now rewrite Hcount.
Qed.

(** Whatever the search finds is in the text: the two groups stand
    between the two literals, the first without a line feed, the second a
    non-empty run of digits. *)
Lemma search_obtained_sound (text : string) (m : list string) :
  Re.search PokemonTracker.obtained_re text = Some m ->
  exists before g1 d ds rest,
    m = [g1; String d ds] /\
    text = before ++ "Shiny " ++ g1 ++ " obtained in " ++ String d ds ++ rest /\
    one_line g1 = true /\
    all_chars PyStr.is_digit (String d ds) = true.
Proof.
  intros H. destruct (search_sound _ _ _ H) as [before [s [Htext Hm]]].
  unfold PokemonTracker.obtained_re in Hm. cbn [Re.match_here] in Hm.
  destruct (Re.strip_prefix "Shiny " s) as [s1|] eqn:E1; [|discriminate].
  apply strip_prefix_sound in E1.
  destruct (Re.greedy _ _ s1) as [[g1 caps]|] eqn:E2; [|discriminate].
  injection Hm as <-.
  apply greedy_sound in E2 as [Hg1 [s2 [Hs1 Hk]]].
  destruct (Re.strip_prefix " obtained in " s2) as [s3|] eqn:E3;
    [|discriminate].
  apply strip_prefix_sound in E3.
  destruct s3 as [|d s3]; [discriminate|].
  destruct (Re.atom_matches (Re.Cls Re.Digit) d) eqn:Hd; [|discriminate].
  destruct (Re.greedy _ _ s3) as [[ds caps']|] eqn:E4; [|discriminate].
  injection Hk as <-.
  apply greedy_sound in E4 as [Hds [rest [Hs3 Hk]]].
  injection Hk as <-.
  exists before, g1, d, ds, rest. repeat split.
  - rewrite Htext, E1, Hs1, E3, Hs3. reflexivity.
  - exact Hg1.
  - change (PyStr.is_digit d = true) in Hd.
    change (all_chars PyStr.is_digit ds = true) in Hds.
    cbn [all_chars]. now rewrite Hd, Hds.
Qed.

Lemma search_complete (p : Re.pattern) (before rest : string) :
  Re.match_here p rest <> None -> Re.search p (before ++ rest) <> None.
Proof.
  intros H. induction before as [|c before IH].
  - cbn [append]. destruct rest; cbn [Re.search];
      now destruct (Re.match_here p _).
  - cbn [append Re.search].
    now destruct (Re.match_here p (String c (before ++ rest))).
Qed.

(** The search fails only on a text with no place where the two literals
    stand around a run without line feed and before a digit: the fallback
    of [get_data] is taken on such labels and on no other. *)
Lemma search_obtained_complete (before g1 : string) (d : ascii)
    (rest : string) :
  one_line g1 = true ->
  PyStr.is_digit d = true ->
  Re.search PokemonTracker.obtained_re
    (before ++ "Shiny " ++ g1 ++ " obtained in " ++ String d rest)
  <> None.
Proof.
  intros Hg Hd. apply search_complete.
  unfold PokemonTracker.obtained_re.
  rewrite match_here_lit, match_here_star. fold count_re.
  assert (Hk : Re.match_here count_re (" obtained in " ++ String d rest)
               <> None).
  { unfold count_re. rewrite match_here_lit.
    pose proof (greedy_complete (Re.atom_matches (Re.Cls Re.Digit))
                  (Re.match_here []) "" rest eq_refl) as Hgreedy.
    cbn [append] in Hgreedy.
    change (Re.match_here [Re.GroupPlus (Re.Cls Re.Digit)] (String d rest))
      with (if PyStr.is_digit d
            then match Re.greedy (Re.atom_matches (Re.Cls Re.Digit))
                         (Re.match_here []) rest with
                 | Some (g, caps) => Some (String d g :: caps)
                 | None => None
                 end
            else None).
    rewrite Hd.
    destruct (Re.greedy (Re.atom_matches (Re.Cls Re.Digit))
                (Re.match_here []) rest) as [[? ?]|];
      [discriminate|].
    exfalso. apply Hgreedy; [discriminate | reflexivity]. }
  pose proof (greedy_complete _ _ g1 _ Hg Hk) as Hgreedy.
  destruct (Re.greedy _ _ (g1 ++ " obtained in " ++ String d rest))
    as [[? ?]|]; [discriminate | now elim Hgreedy].
Qed.

End Search.

(** ** Trackers: locking and saving *)

Section Trackers.

Import PokemonTracker.

Lemma lock_label (t : PokemonTracker.t) :
  name_var (lock_as_obtained t)
  = "Shiny " ++ name_var t ++ " obtained in "
      ++ PyStr.str_of_int (count_var t)
      ++ (if count_var t =? 1 then " try!" else " tries!").
Proof.
  unfold lock_as_obtained. cbn [name_var].
  now destruct (count_var t =? 1).
Qed.

(** [get_data] always returns: [int] is only given what [\d+] matched. *)
Lemma get_data_returns (t : PokemonTracker.t) :
  exists r, get_data t = Some r.
Proof.
  unfold get_data. destruct (obtained_var t); [|eauto].
  destruct (Re.search obtained_re (name_var t)) as [m|] eqn:E; [|eauto].
  destruct (search_obtained_sound _ _ E)
    as [before [g1 [d [ds [rest [-> [_ [_ Hd]]]]]]]].
  destruct (int_of_str_digits d ds Hd) as [n [Hn _]].
  cbn [Re.group Nat.sub nth]. rewrite Hn. eauto.
Qed.

(** Saving a locked tracker whose name had no line feed and whose count
    was not negative gives back that name and that count. *)
Lemma get_data_locked (t : PokemonTracker.t) :
  one_line (name_var t) = true ->
  0 <= count_var t ->
  obtained_var t = true ->
  get_data (lock_as_obtained t)
  = Some (mkTrackerObj (Some (name_var t)) (Some (count_var t)) (Some true)).
Proof.
  intros Hline Hcount Hobt.
  destruct (str_of_int_nonneg _ Hcount) as [d [ds [Hstr [Hdig Hint]]]].
  unfold get_data. rewrite lock_label.
  change (obtained_var (lock_as_obtained t)) with (obtained_var t).
  rewrite Hobt, Hstr.
  assert (Hsearch :
    Re.search obtained_re
      ("Shiny " ++ name_var t ++ " obtained in " ++ String d ds
         ++ (if count_var t =? 1 then " try!" else " tries!"))
    = Some [name_var t; String d ds]).
  { destruct (count_var t =? 1); now apply search_label. }
  rewrite Hsearch. cbn [Re.group Nat.sub nth]. now rewrite Hint.
Qed.

Lemma get_data_init (n : string) (c : Z) (o : bool) :
  0 <= c ->
  (o = true -> one_line n = true) ->
  get_data (__init__ n c o) = Some (mkTrackerObj (Some n) (Some c) (Some o)).
Proof.
  intros Hc Hn. unfold __init__. cbn [obtained_var].
  destruct o; [|reflexivity].
  now rewrite get_data_locked; cbn [name_var count_var obtained_var]; auto.
Qed.

(** Locking through the button, then saving. *)
Lemma lock_then_get_data (t : PokemonTracker.t) :
  one_line (name_var t) = true ->
  0 <= count_var t ->
  get_data (mark_obtained t)
  = Some (mkTrackerObj (Some (name_var t)) (Some (count_var t)) (Some true)).
Proof.
  intros Hline Hcount. unfold mark_obtained.
  now rewrite get_data_locked.
Qed.

(** A locked tracker the program holds has its controls switched off. *)
Lemma locked_controls (t : PokemonTracker.t) :
  reachable t ->
  obtained_var t = true ->
  name_entry t = readonly /\ btn_decrement t = disabled /\
  btn_increment t = disabled /\ btn_got_it t = disabled.
Proof.
  induction 1 as [n c o | e t Hr IH].
  - unfold __init__. cbn [obtained_var].
    destruct o; [intros _; repeat split | discriminate].
  - destruct e; unfold handle.
    + destruct (is_normal (btn_decrement t)) eqn:Hw; [|exact IH].
      unfold decrement_count. destruct (count_var t >? 0); [|exact IH].
      exact IH.
    + destruct (is_normal (btn_increment t)) eqn:Hw; [|exact IH].
      exact IH.
    + destruct (is_normal (btn_got_it t)) eqn:Hw; [|exact IH].
      intros _. repeat split.
    + destruct (is_normal (name_entry t)) eqn:Hw; [|exact IH].
      exact IH.
Qed.

End Trackers.

(** ** Tabs and documents *)

Section Tabs.

Lemma add_trackers_map (tab : PokemonTab.t) (l : list tracker_obj) :
  App.add_trackers tab l
  = PokemonTab.mk (PokemonTab.tab_name tab)
      (PokemonTab.trackers tab ++ map restored l).
Proof.
  revert tab. induction l as [|r l IH]; intros [n ts].
  - cbn. now rewrite app_nil_r.
  - change (App.add_trackers (PokemonTab.mk n ts) (r :: l))
      with (App.add_trackers
              (PokemonTab.add_tracker (PokemonTab.mk n ts)
                 (dict_get (j_name r) "Error") (dict_get (j_count r) 0)
                 (dict_get (j_obtained r) false)) l).
    rewrite IH. unfold PokemonTab.add_tracker.
    cbn [PokemonTab.tab_name PokemonTab.trackers map].
    now rewrite <- app_assoc.
Qed.

(** The tab [_create_and_add_tab] builds from a document. *)
Lemma create_tab (app : App.t) (n : string) (d : tab_obj) :
  snd (App._create_and_add_tab app n (Some d))
  = PokemonTab.mk n (map restored (dict_get (j_trackers d) [])).
Proof.
  unfold App._create_and_add_tab. cbn [snd].
  destruct d as [[tn|] [l|]];
    cbn [j_trackers j_tab_name dict_get dict_has dict_truthy orb andb];
    try reflexivity; now rewrite add_trackers_map.
Qed.

Lemma create_notebook (app : App.t) (n : string) (d : option tab_obj) :
  fst (App._create_and_add_tab app n d)
  = App.mk (App.notebook app ++ [snd (App._create_and_add_tab app n d)])
      (Some (List.length (App.notebook app))).
Proof. reflexivity. Qed.

Lemma map_raise_inverse {A B : Type} (f : A -> option B) (h : B -> A)
    (l : list B) :
  Forall (fun x => f (h x) = Some x) l -> map_raise f (map h l) = Some l.
Proof.
  induction 1 as [|x l Hx _ IH]; simpl; [reflexivity|].
  now rewrite Hx, IH.
Qed.

(** Saving what was loaded gives the document back, when the names of the
    obtained trackers have no line feed. *)
Lemma serialize_deserialize (doc : tab_obj) :
  well_formed doc ->
  (forall r n, In r (dict_get (j_trackers doc) []) ->
               j_obtained r = Some true -> j_name r = Some n ->
               one_line n = true) ->
  serialize (deserialize doc) = Some doc.
Proof.
  intros [[tn Htn] [l [Hl Hwf]]] Hlines.
  unfold serialize, deserialize. rewrite create_tab.
  unfold PokemonTab.get_data. cbn [PokemonTab.trackers PokemonTab.tab_name].
  destruct doc as [otn ol]. cbn in Htn, Hl, Hlines |- *. subst otn ol.
  cbn [dict_get] in *.
  rewrite map_raise_inverse; [reflexivity|].
  rewrite Forall_forall in Hwf |- *.
  - intros r Hr. destruct (Hwf r Hr) as [[n Hn] [[c [Hc Hpos]] [o Ho]]].
    unfold restored. rewrite Hn, Hc, Ho. cbn [dict_get].
    destruct r as [rn rc ro]. cbn in Hn, Hc, Ho. subst rn rc ro.
    apply get_data_init; [exact Hpos|].
    intros ->. now apply (Hlines _ n Hr).
Qed.

(** The startup scan closes no tab. *)
Lemma startup_keeps (listing : list (string * option tab_obj)) (app : App.t)
    (tab : PokemonTab.t) :
  In tab (App.notebook app) ->
  In tab (App.notebook (fst (App.load_all_tabs_on_startup app listing))).
Proof.
  revert app. induction listing as [|[f content] rest IH]; intros app Hin;
    [exact Hin|].
  cbn [App.load_all_tabs_on_startup].
  destruct (PyStr.endswith ".json" f); [|now apply IH].
  destruct content as [data|].
  - apply IH. rewrite create_notebook. cbn [App.notebook].
    apply in_or_app. now left.
  - specialize (IH app Hin).
    now destruct (App.load_all_tabs_on_startup app rest).
Qed.

End Tabs.

(** ** The storage key *)

Section Keys.

Lemma unsafe_is_not_kept (c : ascii) :
  Re.atom_matches App.unsafe_re c = negb (Spec.kept c).
Proof.
  unfold App.unsafe_re, Spec.kept.
  cbn [Re.atom_matches existsb Re.cls_matches].
  destruct (PyStr.is_alnum c), (Ascii.eqb c "_"), (Ascii.eqb c "-"),
    (Ascii.eqb c "."), (Ascii.eqb c " "); reflexivity.
Qed.

Lemma sub_scrub (s : string) :
  Re.sub App.unsafe_re "_" s = PyStr.map_chars Spec.scrub s.
Proof.
  induction s as [|c s IH]; cbn [Re.sub PyStr.map_chars]; [reflexivity|].
  rewrite unsafe_is_not_kept, IH. unfold Spec.scrub.
  now destruct (Spec.kept c).
Qed.

Lemma replace_unspace (s : string) :
  PyStr.replace " " "_" s = PyStr.map_chars Spec.unspace s.
Proof.
  induction s as [|c s IH]; cbn [PyStr.replace PyStr.map_chars];
    [reflexivity|].
  rewrite IH. unfold Spec.unspace. now destruct (Ascii.eqb c " ").
Qed.

Lemma map_chars_list (f : ascii -> ascii) (l : list ascii) :
  PyStr.map_chars f (string_of_list_ascii l) = string_of_list_ascii (map f l).
Proof.
  induction l as [|c l IH]; simpl; [reflexivity | now rewrite IH].
Qed.

Lemma lstrip_list (l : list ascii) :
  PyStr.lstrip (string_of_list_ascii l)
  = string_of_list_ascii (Spec.drop_spaces l).
Proof.
  induction l as [|c l IH]; simpl; [reflexivity|].
  now destruct (PyStr.is_space c).
Qed.

Lemma string_of_list_snoc (l : list ascii) (c : ascii) :
  string_of_list_ascii (l ++ [c]) = string_of_list_ascii l ++ String c "".
Proof.
  induction l as [|x l IH]; simpl; [reflexivity | now rewrite IH].
Qed.

Lemma rstrip_snoc (s : string) (c : ascii) :
  PyStr.rstrip (s ++ String c "")
  = if PyStr.is_space c then PyStr.rstrip s else s ++ String c "".
Proof.
  induction s as [|x s IH].
  - cbn. now destruct (PyStr.is_space c).
  - cbn [append PyStr.rstrip]. rewrite IH.
    destruct (PyStr.is_space c); [reflexivity|].
    now destruct s.
Qed.

Lemma rstrip_list (l : list ascii) :
  PyStr.rstrip (string_of_list_ascii l)
  = string_of_list_ascii (rev (Spec.drop_spaces (rev l))).
Proof.
  induction l as [|c l IH] using rev_ind; [reflexivity|].
  rewrite string_of_list_snoc, rstrip_snoc, rev_app_distr.
  cbn [rev app Spec.drop_spaces].
  destruct (PyStr.is_space c); [exact IH|].
  cbn [rev]. now rewrite rev_involutive, string_of_list_snoc.
Qed.

(** The code and the text agree on the key of every name. *)
Lemma safe_name_spec (name : string) :
  App.safe_name name = Spec.derive_storage_key name.
Proof.
  unfold App.safe_name, Spec.derive_storage_key, PyStr.strip, PyStr.lower,
    Spec.trim.
  rewrite sub_scrub, replace_unspace.
  rewrite <- (string_of_list_ascii_of_string name) at 1.
  now rewrite map_chars_list, lstrip_list, rstrip_list, !map_chars_list.
Qed.

Lemma in_drop_spaces (x : ascii) (l : list ascii) :
  In x (Spec.drop_spaces l) -> In x l.
Proof.
  induction l as [|c l IH]; simpl; [tauto|].
  destruct (PyStr.is_space c); [right; now apply IH | tauto].
Qed.

Lemma in_trim (x : ascii) (l : list ascii) : In x (Spec.trim l) -> In x l.
Proof.
  unfold Spec.trim. intros H.
  apply in_rev, in_drop_spaces, in_rev, in_drop_spaces in H. exact H.
Qed.

(** No character of a key is a slash. *)
Lemma key_char (c : ascii) :
  Spec.unspace (PyStr.lower_char (Spec.scrub c)) <> "/"%char.
Proof.
  destruct c as [[|] [|] [|] [|] [|] [|] [|] [|]]; vm_compute; discriminate.
Qed.

(** The file of a tab is directly inside the save directory. *)
Lemma filename_in_save_directory (tab_name : string) :
  App._get_filename_for_tab tab_name
  = "shiny_saves/" ++ App.safe_name tab_name ++ ".json".
Proof.
  unfold App._get_filename_for_tab, App.os_path_join.
  assert (H : PyStr.startswith "/" (App.safe_name tab_name ++ ".json")
              = false).
  { rewrite safe_name_spec. unfold Spec.derive_storage_key.
    rewrite map_map.
    destruct (Spec.trim (map Spec.scrub (list_ascii_of_string tab_name)))
      as [|c' rest] eqn:E; [reflexivity|].
    assert (Hin : In c' (map Spec.scrub (list_ascii_of_string tab_name))).
    { apply in_trim. rewrite E. now left. }
    apply in_map_iff in Hin as [c [<- _]].
    cbn [map string_of_list_ascii append].
    unfold PyStr.startswith. cbn [prefix].
    destruct (ascii_dec "/" _) as [Heq|]; [|reflexivity].
    symmetry in Heq. now apply key_char in Heq. }
  rewrite H. reflexivity.
Qed.

End Keys.

(** ** The claims *)

(** C1.  Saving a locked tracker does not always return the name it had
    before it was locked.  The tracker built from the record with name
    "a<LF>Shiny b", count 3 and obtained true is locked and its label is the
    announcement of that name and count, yet [get_data] returns the name
    "b": the [.] of the search does not cross the line feed, so the match
    starts at the second "Shiny ".  The count and the obtained flag are
    returned as they were. *)
Theorem get_data_line_feed_name :
  let n := "a" ++ String PyStr.LF "Shiny b" in
  let t := PokemonTracker.__init__ n 3 true in
  PokemonTracker.obtained_var t = true /\
  PokemonTracker.name_var t = "Shiny " ++ n ++ " obtained in 3 tries!" /\
  PokemonTracker.get_data t
  = Some (mkTrackerObj (Some "b") (Some 3) (Some true)) /\
  PokemonTracker.get_data t
  <> Some (mkTrackerObj (Some n) (Some 3) (Some true)).
Proof.
  cbv zeta. repeat split; try reflexivity.
  vm_compute. discriminate.
Qed.

(** C2.  Saving what was loaded does not always give the document back.
    The document below is well formed, the name of its one tracker has no
    match of the pattern of line 80, and the tracker is obtained; its name
    holds a line feed, the search of [get_data] fails on the label and the
    saved name is "Unknown". *)
Theorem roundtrip_line_feed_name :
  let n := "a" ++ String PyStr.LF "b" in
  let doc :=
    mkTabObj (Some "Eggs") (Some [mkTrackerObj (Some n) (Some 3) (Some true)])
  in
  well_formed doc /\
  Re.search PokemonTracker.obtained_re n = None /\
  serialize (deserialize doc)
  = Some (mkTabObj (Some "Eggs")
            (Some [mkTrackerObj (Some "Unknown") (Some 3) (Some true)])) /\
  serialize (deserialize doc) <> Some doc.
Proof.
  cbv zeta. split; [|split; [reflexivity | split; [reflexivity|]]].
  - split; [now eexists|]. eexists; split; [reflexivity|].
    constructor; [|constructor].
    repeat split; eexists; try split; try reflexivity. lia.
  - vm_compute. discriminate.
Qed.

(** C3.  Locking and then saving does not always recover the name.  The
    unlocked tracker with label "a<LF>b" and attempts 3, once locked through
    [mark_obtained], saves the name "Unknown" (and the count 3). *)
Theorem lock_then_get_data_line_feed_name :
  let n := "a" ++ String PyStr.LF "b" in
  let t := PokemonTracker.__init__ n 3 false in
  PokemonTracker.obtained_var t = false /\
  PokemonTracker.name_var t = n /\
  PokemonTracker.count_var t = 3 /\
  PokemonTracker.get_data (PokemonTracker.mark_obtained t)
  = Some (mkTrackerObj (Some "Unknown") (Some 3) (Some true)).
Proof.
  cbv zeta. repeat split; reflexivity.
Qed.

(** C4, as stated, fails: the methods carry no test of the lock.  On the
    locked tracker built from ("Foo", 3, obtained), [increment_count] and
    [decrement_count] change the count and [mark_obtained] (so
    [lock_as_obtained]) rewrites the label. *)
Lemma locked_methods_change_fields :
  let t := PokemonTracker.__init__ "Foo" 3 true in
  PokemonTracker.obtained_var t = true /\
  PokemonTracker.count_var (PokemonTracker.increment_count t) = 4 /\
  PokemonTracker.count_var (PokemonTracker.decrement_count t) = 2 /\
  PokemonTracker.name_var (PokemonTracker.mark_obtained t)
  = "Shiny Shiny Foo obtained in 3 tries! obtained in 3 tries!" /\
  ~ (PokemonTracker.increment_count t = t /\
     PokemonTracker.decrement_count t = t /\
     PokemonTracker.mark_obtained t = t /\
     PokemonTracker.lock_as_obtained t = t).
Proof.
  cbv zeta. repeat split; try reflexivity.
  intros [H _]. vm_compute in H. discriminate.
Qed.

(** C4, amended.  A locked tracker that was built by the constructor and
    changed by user events only is a terminal state of the widget: its
    entry is read-only and its three buttons are disabled, so no user event
    (pressing "-", "+" or "Got it!", typing in the entry) changes any of
    its fields. *)
Theorem locked_is_terminal (t : PokemonTracker.t) (e : PokemonTracker.event) :
  PokemonTracker.reachable t ->
  PokemonTracker.obtained_var t = true ->
  PokemonTracker.handle e t = t.
Proof.
  intros Hr Ho.
  destruct (locked_controls t Hr Ho) as [He [Hd [Hi Hg]]].
  destruct e; unfold PokemonTracker.handle;
    rewrite ?He, ?Hd, ?Hi, ?Hg; reflexivity.
Qed.

Lemma locked_is_terminal_witness :
  let t := PokemonTracker.handle PokemonTracker.press_got_it
             (PokemonTracker.handle PokemonTracker.press_increment
                (PokemonTracker.__init__ "Pikachu" 0 false)) in
  PokemonTracker.reachable t /\
  PokemonTracker.obtained_var t = true /\
  PokemonTracker.handle PokemonTracker.press_increment t = t.
Proof.
  cbv zeta.
  assert (Hr : PokemonTracker.reachable
                 (PokemonTracker.handle PokemonTracker.press_got_it
                    (PokemonTracker.handle PokemonTracker.press_increment
                       (PokemonTracker.__init__ "Pikachu" 0 false)))).
  { do 2 apply PokemonTracker.reach_event. apply PokemonTracker.reach_init. }
  split; [exact Hr|]. split; [reflexivity|].
  apply (locked_is_terminal _ PokemonTracker.press_increment Hr).
  reflexivity.
Defined.

(** C5.  From a count that is not negative, any replay of increments and
    decrements leaves the count equal to the sum of the +1 and -1 steps,
    clamped at 0 after each step; the count is never negative, and a
    decrement at 0 changes nothing. *)
Theorem replay_clamped_sum (t : PokemonTracker.t) (ops : list op) :
  0 <= PokemonTracker.count_var t ->
  PokemonTracker.count_var (replay ops t)
  = Spec.clamped_sum (PokemonTracker.count_var t) ops /\
  0 <= PokemonTracker.count_var (replay ops t) /\
  (PokemonTracker.count_var t = 0 -> PokemonTracker.decrement_count t = t).
Proof.
  intros H0. split; [|split].
  - revert t H0. induction ops as [|o ops IH]; intros t H0; [reflexivity|].
    cbn [replay fold_left Spec.clamped_sum] in *.
    assert (Hstep : PokemonTracker.count_var (apply_op t o)
                    = Z.max 0 (PokemonTracker.count_var t + Spec.step o)).
    { destruct o; cbn [apply_op Spec.step].
      - unfold PokemonTracker.increment_count. cbn. lia.
      - unfold PokemonTracker.decrement_count.
        destruct (PokemonTracker.count_var t >? 0) eqn:E; cbn.
        + apply Z.gtb_lt in E. lia.
        + rewrite Z.gtb_ltb in E. apply Z.ltb_ge in E. lia. }
    rewrite <- Hstep. apply IH. rewrite Hstep. lia.
  - revert t H0. induction ops as [|o ops IH]; intros t H0; [exact H0|].
    cbn [replay fold_left]. apply IH.
    destruct o; cbn [apply_op].
    + unfold PokemonTracker.increment_count. cbn. lia.
    + unfold PokemonTracker.decrement_count.
      destruct (PokemonTracker.count_var t >? 0) eqn:E; cbn; [|exact H0].
      apply Z.gtb_lt in E. lia.
  - intros Hz. unfold PokemonTracker.decrement_count. now rewrite Hz.
Qed.

Lemma replay_clamped_sum_witness :
  let t := PokemonTracker.__init__ "Pikachu" 0 false in
  let ops := [Dec; Inc; Inc; Dec; Dec; Dec; Inc] in
  0 <= PokemonTracker.count_var t /\
  (PokemonTracker.count_var (replay ops t)
   = Spec.clamped_sum (PokemonTracker.count_var t) ops /\
   0 <= PokemonTracker.count_var (replay ops t) /\
   (PokemonTracker.count_var t = 0 -> PokemonTracker.decrement_count t = t)).
Proof.
  cbv zeta. split; [cbn; lia|].
  apply (replay_clamped_sum (PokemonTracker.__init__ "Pikachu" 0 false)).
  cbn. lia.
Defined.

(** C6.  The key the code derives from a name is the one the four steps of
    the text give: every character that is not alphanumeric, underscore,
    hyphen, dot or space becomes an underscore, leading and trailing
    whitespace is trimmed, the result is lower-cased and its spaces become
    underscores.  The file of the tab is that key with the extension
    ".json" inside the save directory.  "Pokemon Glazed!" and
    "pokemon_glazed!" have the same key, hence the same file. *)
Theorem safe_name_is_derive_storage_key :
  (forall name, App.safe_name name = Spec.derive_storage_key name) /\
  (forall name,
     App._get_filename_for_tab name
     = "shiny_saves/" ++ Spec.derive_storage_key name ++ ".json") /\
  App.safe_name "Pokemon Glazed!" = "pokemon_glazed_" /\
  App.safe_name "pokemon_glazed!" = "pokemon_glazed_" /\
  App._get_filename_for_tab "Pokemon Glazed!"
  = App._get_filename_for_tab "pokemon_glazed!".
Proof.
  split; [exact safe_name_spec|].
  split; [|repeat split; reflexivity].
  intros name. now rewrite filename_in_save_directory, safe_name_spec.
Qed.

(** C7.  The lock transition of the "Got it!" button, on a tracker with
    label L and attempts n, sets the label to
    "Shiny L obtained in n unit!", where the unit is "try" exactly when
    n = 1 and "tries" for every other n, and sets the obtained flag; the
    attempts are kept.  So attempts 1 give "1 try" and attempts 0 or 2 give
    "0 tries" and "2 tries".  The label is the work of [lock_as_obtained];
    the flag is set by [mark_obtained] just before it calls it. *)
Theorem mark_obtained_label :
  (forall t : PokemonTracker.t,
     exists unit : string,
       PokemonTracker.name_var (PokemonTracker.mark_obtained t)
       = "Shiny " ++ PokemonTracker.name_var t ++ " obtained in "
           ++ PyStr.str_of_int (PokemonTracker.count_var t)
           ++ " " ++ unit ++ "!" /\
       (unit = "try" <-> PokemonTracker.count_var t = 1) /\
       (unit = "tries" <-> PokemonTracker.count_var t <> 1) /\
       PokemonTracker.obtained_var (PokemonTracker.mark_obtained t) = true /\
       PokemonTracker.count_var (PokemonTracker.mark_obtained t)
       = PokemonTracker.count_var t /\
       PokemonTracker.name_var (PokemonTracker.lock_as_obtained t)
       = PokemonTracker.name_var (PokemonTracker.mark_obtained t)) /\
  (forall L : string,
     PokemonTracker.name_var
       (PokemonTracker.mark_obtained (PokemonTracker.__init__ L 1 false))
     = "Shiny " ++ L ++ " obtained in 1 try!" /\
     PokemonTracker.name_var
       (PokemonTracker.mark_obtained (PokemonTracker.__init__ L 0 false))
     = "Shiny " ++ L ++ " obtained in 0 tries!" /\
     PokemonTracker.name_var
       (PokemonTracker.mark_obtained (PokemonTracker.__init__ L 2 false))
     = "Shiny " ++ L ++ " obtained in 2 tries!").
Proof.
  split.
  - intros t.
    exists (if PokemonTracker.count_var t =? 1 then "try" else "tries").
    split; [reflexivity|].
    destruct (Z.eqb_spec (PokemonTracker.count_var t) 1) as [E|E].
    + repeat split; try reflexivity; try discriminate; intros; congruence.
    + repeat split; try reflexivity; try discriminate; intros; congruence.
  - intros L. repeat split; reflexivity.
Qed.

(** C8.  A record whose obtained flag is true is restored by building the
    tracker and applying at once the lock transition of the "Got it!"
    button: the result is the tracker that button would give on the
    unlocked tracker of the same name and count.  The document with the
    one tracker (obtained, count 3, name "Foo") and no tab name loads as
    one tab with exactly one tracker, locked, whose label is
    "Shiny Foo obtained in 3 tries!" and whose count is 3, and no user event
    changes that tracker. *)
Theorem restored_obtained_is_locked :
  (forall (n : option string) (c : option Z),
     let r := mkTrackerObj n c (Some true) in
     restored r
     = PokemonTracker.mark_obtained
         (PokemonTracker.__init__ (dict_get n "Error") (dict_get c 0) false)
     /\ PokemonTracker.obtained_var (restored r) = true
     /\ PokemonTracker.count_var (restored r) = dict_get c 0) /\
  (let doc :=
     mkTabObj None (Some [mkTrackerObj (Some "Foo") (Some 3) (Some true)]) in
   let foo :=
     PokemonTracker.mk "Shiny Foo obtained in 3 tries!" 3 true
       readonly disabled disabled disabled false "Obtained.TFrame" in
   App.load_tab_from_file App.empty (Some (Some doc))
   = (App.mk [PokemonTab.mk "Untitled" [foo]] (Some 0%nat), App.loaded) /\
   deserialize doc = PokemonTab.mk "Untitled" [foo] /\
   forall e, PokemonTracker.handle e foo = foo).
Proof.
  split.
  - intros n c. cbv zeta. repeat split; reflexivity.
  - cbv zeta. repeat split; try reflexivity.
    intros e. destruct e; reflexivity.
Qed.

(** C9.  Loading a document through "Load Tab", when no open tab has its
    name, adds one tab: its name is the document's [tab_name], or
    "Untitled" without one; its trackers are those of the document's
    [trackers] list, in the order of the list, or none without one; each
    tracker is built from its record's name, or "Error", its count, or 0,
    and its obtained flag, or false.  The empty object loads as a tab named
    "Untitled" with no tracker. *)
Theorem load_defaults (app : App.t) (data : tab_obj) :
  App.find_open (dict_get (j_tab_name data) "Untitled") (App.notebook app) 0
  = None ->
  let name :=
    match j_tab_name data with Some n => n | None => "Untitled" end in
  let records :=
    match j_trackers data with Some l => l | None => [] end in
  let build (r : tracker_obj) :=
    PokemonTracker.__init__
      match j_name r with Some n => n | None => "Error" end
      match j_count r with Some c => c | None => 0 end
      match j_obtained r with Some o => o | None => false end in
  App.load_tab_from_file app (Some (Some data))
  = (App.mk (App.notebook app ++ [PokemonTab.mk name (map build records)])
       (Some (List.length (App.notebook app))), App.loaded) /\
  deserialize data = PokemonTab.mk name (map build records) /\
  deserialize (mkTabObj None None) = PokemonTab.mk "Untitled" [].
Proof.
  intros Hopen. cbv zeta. split; [|split; [|reflexivity]].
  - unfold App.load_tab_from_file. rewrite Hopen.
    rewrite create_notebook, create_tab. reflexivity.
  - unfold deserialize. rewrite create_tab. reflexivity.
Qed.

Lemma load_defaults_witness :
  let app := App.mk [PokemonTab.mk "Glazed" []] (Some 0%nat) in
  let data := mkTabObj None (Some [mkTrackerObj None None None;
                                   mkTrackerObj (Some "Eevee") None None]) in
  App.find_open (dict_get (j_tab_name data) "Untitled") (App.notebook app) 0
  = None /\
  App.load_tab_from_file app (Some (Some data))
  = (App.mk [PokemonTab.mk "Glazed" [];
             PokemonTab.mk "Untitled"
               [PokemonTracker.__init__ "Error" 0 false;
                PokemonTracker.__init__ "Eevee" 0 false]]
       (Some 1%nat), App.loaded).
Proof.
  cbv zeta. split; [reflexivity|].
  refine (proj1 (load_defaults
                   (App.mk [PokemonTab.mk "Glazed" []] (Some 0%nat))
                   (mkTabObj None (Some [mkTrackerObj None None None;
                                         mkTrackerObj (Some "Eevee") None None]))
                   _)).
  reflexivity.
Defined.

(** C10.  Every document without a [tab_name] key that the startup scan
    finds in a ".json" file of the save directory is opened as a tab named
    "Error Loading", with the trackers of the document; the same document
    loaded through "Load Tab" gives a tab named "Untitled". *)
Theorem startup_default_name (app : App.t)
    (listing : list (string * option tab_obj)) (f : string)
    (data : tab_obj) :
  In (f, Some data) listing ->
  PyStr.endswith ".json" f = true ->
  j_tab_name data = None ->
  In (PokemonTab.mk "Error Loading"
        (map restored (dict_get (j_trackers data) [])))
     (App.notebook (fst (App.load_all_tabs_on_startup app listing))) /\
  deserialize data
  = PokemonTab.mk "Untitled" (map restored (dict_get (j_trackers data) [])).
Proof.
  intros Hin Hext Hname. split.
  - revert app. induction listing as [|[g content] rest IH]; intros app;
      [destruct Hin|].
    cbn [App.load_all_tabs_on_startup].
    destruct Hin as [[= -> ->]|Hin].
    + rewrite Hext, Hname. cbn [dict_get].
      apply startup_keeps. rewrite create_notebook, create_tab.
      cbn [App.notebook]. apply in_or_app. right. now left.
    + destruct (PyStr.endswith ".json" g); [|now apply IH].
      destruct content as [d|]; [now apply IH|].
      specialize (IH Hin app).
      now destruct (App.load_all_tabs_on_startup app rest).
  - unfold deserialize. rewrite create_tab, Hname. reflexivity.
Qed.

Lemma startup_default_name_witness :
  let data := mkTabObj None (Some [mkTrackerObj (Some "Eevee") (Some 12) None]) in
  let listing := [("notes.txt", None); ("broken.json", None);
                  ("eggs.json", Some data)] in
  In ("eggs.json", Some data) listing /\
  PyStr.endswith ".json" "eggs.json" = true /\
  j_tab_name data = None /\
  In (PokemonTab.mk "Error Loading" [PokemonTracker.__init__ "Eevee" 12 false])
     (App.notebook (fst (App.load_all_tabs_on_startup App.empty listing))).
Proof.
  cbv zeta. split; [right; right; left; reflexivity|].
  split; [reflexivity|]. split; [reflexivity|].
  refine (proj1 (startup_default_name App.empty
                   [("notes.txt", None); ("broken.json", None);
                    ("eggs.json",
                     Some (mkTabObj None
                             (Some [mkTrackerObj (Some "Eevee") (Some 12) None])))]
                   "eggs.json"
                   (mkTabObj None
                      (Some [mkTrackerObj (Some "Eevee") (Some 12) None]))
                   _ _ _)).
  - right; right; left; reflexivity.
  - reflexivity.
  - reflexivity.
Defined.

(** ** More on the storage key *)

Section KeyFacts.

Ltac by_cases_on c :=
  destruct c as [[|] [|] [|] [|] [|] [|] [|] [|]]; vm_compute; reflexivity.

Lemma scrub_space (c : ascii) :
  PyStr.is_space (Spec.scrub c) = Ascii.eqb c " ".
Proof. by_cases_on c. Qed.






Lemma key_of_char_not_slash (c : ascii) :
  Ascii.eqb (key_of_char c) "/" = false.
Proof. by_cases_on c. Qed.

Lemma drop_spaces_scrub (l : list ascii) :
  Spec.drop_spaces (map Spec.scrub l) = map Spec.scrub (drop_blanks l).
Proof.
  induction l as [|c l IH]; [reflexivity|].
  cbn [map Spec.drop_spaces drop_blanks]. rewrite scrub_space.
  now destruct (Ascii.eqb c " ").
Qed.

Lemma trim_scrub (l : list ascii) :
  Spec.trim (map Spec.scrub l) = map Spec.scrub (trim_blanks l).
Proof.
  unfold Spec.trim, trim_blanks.
  now rewrite drop_spaces_scrub, <- map_rev, drop_spaces_scrub, map_rev.
Qed.

Lemma safe_name_closed (name : string) :
  App.safe_name name
  = string_of_list_ascii
      (map key_of_char (trim_blanks (list_ascii_of_string name))).
Proof.
  rewrite safe_name_spec. unfold Spec.derive_storage_key.
  rewrite trim_scrub, !map_map. reflexivity.
Qed.





Lemma in_drop_blanks (x : ascii) (l : list ascii) :
  In x (drop_blanks l) -> In x l.
Proof.
  induction l as [|c l IH]; simpl; [tauto|].
  destruct (Ascii.eqb c " "); [right; now apply IH | tauto].
Qed.




Lemma string_length_app (a b : string) :
  String.length (a ++ b) = (String.length a + String.length b)%nat.
Proof.
  induction a as [|c a IH]; simpl; [reflexivity | now rewrite IH].
Qed.

Lemma substring_all (p : string) : substring 0 (String.length p) p = p.
Proof.
  induction p as [|c p IH]; simpl; [reflexivity | now rewrite IH].
Qed.

Lemma substring_skip (a p : string) :
  substring (String.length a) (String.length p) (a ++ p) = p.
Proof.
  induction a as [|c a IH]; simpl; [apply substring_all | exact IH].
Qed.

Lemma endswith_app (a p : string) : PyStr.endswith p (a ++ p) = true.
Proof.
  unfold PyStr.endswith. rewrite string_length_app.
  replace (String.length a + String.length p - String.length p)%nat
    with (String.length a) by lia.
  rewrite substring_skip, String.eqb_refl, andb_true_r.
  apply Nat.leb_le. lia.
Qed.

Lemma has_slash_app (a b : string) :
  App.has_slash (a ++ b) = (App.has_slash a || App.has_slash b)%bool.
Proof.
  induction a as [|c a IH]; simpl; [reflexivity|].
  now rewrite IH, orb_assoc.
Qed.

Lemma safe_name_no_slash (name : string) :
  App.has_slash (App.safe_name name) = false.
Proof.
  rewrite safe_name_closed.
  induction (trim_blanks (list_ascii_of_string name)) as [|c l IH];
    [reflexivity|].
  cbn [map string_of_list_ascii App.has_slash].
  now rewrite key_of_char_not_slash, IH.
Qed.

Lemma entry_of_filename (name : string) :
  App.entry_of (App._get_filename_for_tab name)
  = Some (App.safe_name name ++ ".json").
Proof.
  rewrite filename_in_save_directory. unfold App.entry_of.
  change (App.SAVE_DIRECTORY ++ "/") with "shiny_saves/".
  rewrite strip_prefix_app, has_slash_app, safe_name_no_slash.
  cbn [App.has_slash orb].
  destruct (App.safe_name name); reflexivity.
Qed.

End KeyFacts.

(** ** More on trackers and tabs *)

Section TrackerFacts.

Import PokemonTracker.

(** Every event takes a tracker the constructor could have built to
    another such tracker. *)
Lemma handle_init (e : event) (L : string) (n : Z) (o : bool) :
  exists L' n' o', handle e (__init__ L n o) = __init__ L' n' o'.
Proof.
  destruct o.
  - exists L, n, true. destruct e; reflexivity.
  - destruct e.
    + destruct (n >? 0) eqn:E.
      * exists L, (n - 1), false. unfold handle, __init__, decrement_count.
        cbn. now rewrite E.
      * exists L, n, false. unfold handle, __init__, decrement_count.
        cbn. now rewrite E.
    + exists L, (n + 1), false. reflexivity.
    + exists L, n, true. reflexivity.
    + exists text, n, false. reflexivity.
Qed.

Lemma reachable_constructed (t : PokemonTracker.t) :
  reachable t -> exists L n o, t = __init__ L n o.
Proof.
  induction 1 as [L n o | e t _ [L [n [o ->]]]]; [now exists L, n, o|].
  apply handle_init.
Qed.

Lemma handle_keeps_flag (e : event) (t : PokemonTracker.t) :
  obtained_var t = true -> obtained_var (handle e t) = true.
Proof.
  intros H. destruct e; unfold handle.
  - destruct (is_normal (btn_decrement t)); [|exact H].
    unfold decrement_count. now destruct (count_var t >? 0).
  - now destruct (is_normal (btn_increment t)).
  - now destruct (is_normal (btn_got_it t)).
  - now destruct (is_normal (name_entry t)).
Qed.

Lemma handle_keeps_sign (e : event) (t : PokemonTracker.t) :
  0 <= count_var t -> 0 <= count_var (handle e t).
Proof.
  intros H. destruct e; unfold handle.
  - destruct (is_normal (btn_decrement t)); [|exact H].
    unfold decrement_count. destruct (count_var t >? 0) eqn:E; [|exact H].
    apply Z.gtb_lt in E. cbn. lia.
  - destruct (is_normal (btn_increment t)); [|exact H]. cbn. lia.
  - now destruct (is_normal (btn_got_it t)).
  - now destruct (is_normal (name_entry t)).
Qed.

(** The shape of what [get_data] returns. *)
Lemma get_data_shape (t : PokemonTracker.t) :
  exists n c,
    get_data t
    = Some (mkTrackerObj (Some n) (Some c) (Some (obtained_var t))) /\
    (obtained_var t = false -> n = name_var t /\ c = count_var t) /\
    (obtained_var t = true ->
     one_line n = true /\ (0 <= count_var t -> 0 <= c)).
Proof.
  unfold get_data. destruct (obtained_var t) eqn:Ho.
  - destruct (Re.search obtained_re (name_var t)) as [m|] eqn:E.
    + destruct (search_obtained_sound _ _ E)
        as [before [g1 [d [ds [rest [-> [_ [Hline Hd]]]]]]]].
      destruct (int_of_str_digits d ds Hd) as [c [Hc Hpos]].
      cbn [Re.group Nat.sub nth]. rewrite Hc.
      exists g1, c. split; [reflexivity|]. split; [discriminate|].
      intros _. split; [exact Hline | intros _; exact Hpos].
    + exists "Unknown", (count_var t). split; [reflexivity|].
      split; [discriminate|]. intros _. split; [reflexivity | tauto].
  - exists (name_var t), (count_var t). split; [reflexivity|].
    split; [tauto | discriminate].
Qed.

(** What was saved for a tracker is saved again, unchanged, for the
    tracker restored from it. *)
Lemma get_data_fixed (t : PokemonTracker.t) (r : tracker_obj) :
  (obtained_var t = true -> 0 <= count_var t) ->
  get_data t = Some r ->
  get_data (restored r) = Some r.
Proof.
  intros Hpos Hr.
  destruct (get_data_shape t) as [n [c [Hshape [_ Hlocked]]]].
  rewrite Hshape in Hr. injection Hr as <-.
  unfold restored. cbn [j_name j_count j_obtained dict_get].
  destruct (obtained_var t) eqn:Ho; [|reflexivity].
  destruct (Hlocked eq_refl) as [Hline Hc].
  apply get_data_init; [now apply Hc, Hpos | intros _; exact Hline].
Qed.

Lemma kept_exactly_restored (t : PokemonTracker.t) :
  kept_exactly t ->
  exists r, get_data t = Some r /\ restored r = t.
Proof.
  intros [L [n [o [-> [Hn Hl]]]]].
  exists (mkTrackerObj (Some L) (Some n) (Some o)).
  split; [now apply get_data_init | reflexivity].
Qed.

End TrackerFacts.

Section TabFacts.

Lemma map_raise_in {A B : Type} (f : A -> option B) (l : list A)
    (out : list B) :
  map_raise f l = Some out ->
  forall y, In y out -> exists x, In x l /\ f x = Some y.
Proof.
  revert out. induction l as [|x l IH]; intros out; simpl.
  - intros [= <-] y [].
  - destruct (f x) as [y0|] eqn:Hx; [|discriminate].
    destruct (map_raise f l) as [ys|]; [|discriminate].
    intros [= <-] y [<-|Hy].
    + exists x. split; [now left | exact Hx].
    + destruct (IH ys eq_refl y Hy) as [x' [Hin Hfx]].
      exists x'. split; [now right | exact Hfx].
Qed.

(** Saving the trackers of a tab: one record for each, in order. *)
Lemma get_data_all (ts : list PokemonTracker.t) :
  exists l,
    map_raise PokemonTracker.get_data ts = Some l /\
    List.length l = List.length ts /\
    map j_obtained l
    = map (fun t => Some (PokemonTracker.obtained_var t)) ts /\
    ((forall t, In t ts -> 0 <= PokemonTracker.count_var t) ->
     Forall well_formed_tracker l).
Proof.
  induction ts as [|t ts [l [Hl [Hlen [Hflags Hwf]]]]].
  - exists []. repeat split; auto.
  - destruct (get_data_shape t) as [n [c [Ht [Hu Hk]]]].
    exists (mkTrackerObj (Some n) (Some c)
              (Some (PokemonTracker.obtained_var t)) :: l).
    cbn [map_raise]. rewrite Ht, Hl. split; [reflexivity|].
    split; [cbn; now rewrite Hlen|].
    split; [cbn; now rewrite Hflags|].
    intros Hpos. constructor.
    + assert (H0 : 0 <= PokemonTracker.count_var t)
        by (apply Hpos; now left).
      repeat split; cbn; eauto.
      exists c. split; [reflexivity|].
      destruct (PokemonTracker.obtained_var t) eqn:Ho.
      * now apply (Hk eq_refl).
      * destruct (Hu eq_refl) as [_ ->]. exact H0.
    + apply Hwf. intros t' Ht'. apply Hpos. now right.
Qed.

Lemma deserialize_shape (n : string) (l : list tracker_obj) :
  deserialize (mkTabObj (Some n) (Some l))
  = PokemonTab.mk n (map restored l).
Proof.
  unfold deserialize. now rewrite create_tab.
Qed.

Lemma kept_exactly_all (ts : list PokemonTracker.t) :
  Forall kept_exactly ts ->
  exists l, map_raise PokemonTracker.get_data ts = Some l /\
            map restored l = ts.
Proof.
  induction 1 as [|t ts Ht _ [l [Hl Hr]]].
  - now exists [].
  - destruct (kept_exactly_restored t Ht) as [r [Hget Hres]].
    exists (r :: l). cbn [map_raise map]. now rewrite Hget, Hl, Hres, Hr.
Qed.

End TabFacts.

(** ** More on the window and the save directory *)

Section AppFacts.

Lemma find_open_none (name : string) (tabs : list PokemonTab.t) (k : nat) :
  App.find_open name tabs k = None <->
  ~ In name (map PokemonTab.tab_name tabs).
Proof.
  revert k. induction tabs as [|tab tabs IH]; intros k; simpl.
  - tauto.
  - destruct (String.eqb_spec (PokemonTab.tab_name tab) name) as [E|E].
    + split; [discriminate | intros H; elim H; now left].
    + rewrite IH. tauto.
Qed.

Lemma find_open_some (name : string) (tabs : list PokemonTab.t) (k i : nat) :
  App.find_open name tabs k = Some i ->
  exists j tab,
    i = (k + j)%nat /\
    nth_error tabs j = Some tab /\
    PokemonTab.tab_name tab = name /\
    forall j' tab', (j' < j)%nat -> nth_error tabs j' = Some tab' ->
                    PokemonTab.tab_name tab' <> name.
Proof.
  revert k. induction tabs as [|tab tabs IH]; intros k; simpl; [discriminate|].
  destruct (String.eqb_spec (PokemonTab.tab_name tab) name) as [E|E].
  - intros [= <-]. exists 0%nat, tab.
    split; [lia|]. split; [reflexivity|]. split; [exact E|].
    intros j' tab' Hlt. lia.
  - intros H. destruct (IH _ H) as [j [tab0 [-> [Hnth [Hname Hfirst]]]]].
    exists (S j), tab0.
    split; [lia|]. split; [exact Hnth|]. split; [exact Hname|].
    intros [|j'] tab' Hlt; simpl.
    + now intros [= <-].
    + apply Hfirst. lia.
Qed.

(** The whole of the startup scan. *)
Lemma startup_scan (listing : App.disk) (app : App.t) :
  App.load_all_tabs_on_startup app listing
  = (App.mk (App.notebook app ++ startup_tabs listing)
       match startup_tabs listing with
       | [] => App.selected app
       | _ :: more =>
           Some (List.length (App.notebook app) + List.length more)%nat
       end,
     startup_failures listing).
Proof.
  revert app. induction listing as [|[f content] rest IH]; intros [nb sel].
  - cbn. now rewrite app_nil_r.
  - cbn [App.load_all_tabs_on_startup startup_tabs startup_failures].
    destruct content as [data|]; destruct (PyStr.endswith ".json" f).
    + rewrite IH, create_notebook, create_tab.
      cbn [App.notebook App.selected]. fold (startup_tab data).
      rewrite <- app_assoc. cbn [app]. f_equal. f_equal.
      destruct (startup_tabs rest) as [|x more]; [f_equal; cbn; lia|].
      rewrite length_app. cbn. f_equal. lia.
    + apply IH.
    + now rewrite IH.
    + apply IH.
Qed.

Lemma in_startup_tabs (listing : App.disk) (f : string) (data : tab_obj) :
  In (f, Some data) listing ->
  PyStr.endswith ".json" f = true ->
  In (startup_tab data) (startup_tabs listing).
Proof.
  intros Hin Hext. induction listing as [|[g content] rest IH];
    [destruct Hin|].
  cbn [startup_tabs]. destruct Hin as [[= -> ->]|Hin].
  - rewrite Hext. now left.
  - destruct content; [destruct (PyStr.endswith ".json" g)|];
      try (right); now apply IH.
Qed.

Lemma lookup_write_same (n : string) (c : option tab_obj) (d : App.disk) :
  App.disk_lookup n (App.disk_write n c d) = Some c.
Proof.
  induction d as [|[f c0] d IH]; simpl.
  - now rewrite String.eqb_refl.
  - destruct (String.eqb f n) eqn:E; simpl; now rewrite E.
Qed.


Lemma in_write (n : string) (c : option tab_obj) (d : App.disk) :
  In (n, c) (App.disk_write n c d).
Proof.
  induction d as [|[f c0] d IH]; simpl; [now left|].
  destruct (String.eqb_spec f n) as [->|E]; [now left | now right].
Qed.

Lemma lookup_remove_same (n : string) (d : App.disk) :
  App.disk_lookup n (App.disk_remove n d) = None.
Proof.
  induction d as [|[f c0] d IH]; simpl; [reflexivity|].
  destruct (String.eqb f n) eqn:E; simpl; [exact IH | now rewrite E].
Qed.

Lemma lookup_remove_other (n n' : string) (d : App.disk) :
  n' <> n ->
  App.disk_lookup n' (App.disk_remove n d) = App.disk_lookup n' d.
Proof.
  intros Hne. induction d as [|[f c0] d IH]; simpl; [reflexivity|].
  destruct (String.eqb_spec f n) as [->|E]; simpl.
  - rewrite IH. apply String.eqb_neq in Hne.
    now rewrite String.eqb_sym, Hne.
  - now rewrite IH.
Qed.

Lemma remove_absent (n : string) (d : App.disk) :
  App.disk_lookup n d = None -> App.disk_remove n d = d.
Proof.
  induction d as [|[f c0] d IH]; simpl; [reflexivity|].
  destruct (String.eqb f n); [discriminate|].
  intros H. now rewrite IH.
Qed.

Lemma remove_write_absent (n : string) (c : option tab_obj) (d : App.disk) :
  App.disk_lookup n d = None ->
  App.disk_remove n (App.disk_write n c d) = d.
Proof.
  induction d as [|[f c0] d IH]; simpl.
  - now rewrite String.eqb_refl.
  - destruct (String.eqb f n) eqn:E; [discriminate|].
    intros H. simpl. now rewrite E, IH.
Qed.

(** Writing the document of a tab, in terms of the directory. *)
Lemma write_json_tab (d : App.disk) (refuses : string -> bool)
    (tab : PokemonTab.t) (data : tab_obj) :
  App.write_json d refuses
    (App._get_filename_for_tab (PokemonTab.tab_name tab)) data
  = if refuses (App._get_filename_for_tab (PokemonTab.tab_name tab))
    then None
    else Some (App.disk_write (entry_name tab) (Some data) d).
Proof.
  unfold App.write_json. now rewrite entry_of_filename.
Qed.

Lemma serialize_returns (tab : PokemonTab.t) :
  exists l, serialize tab
            = Some (mkTabObj (Some (PokemonTab.tab_name tab)) (Some l)).
Proof.
  destruct (get_data_all (PokemonTab.trackers tab)) as [l [Hl _]].
  exists l. unfold serialize, PokemonTab.get_data. now rewrite Hl.
Qed.




End AppFacts.

(** ** Further properties of the program *)


(** X2.  What [get_data] returns for a locked tracker is read in its
    label: either the label holds "Shiny ", the returned name (which has no
    line feed), " obtained in " and digits whose value is the returned
    count; or the name is "Unknown", the count is the stored one, and the
    label has no place where "Shiny ", a text without line feed,
    " obtained in " and a digit follow one another. *)
Theorem get_data_locked_parse (t : PokemonTracker.t) (n : string) (c : Z) :
  PokemonTracker.obtained_var t = true ->
  PokemonTracker.get_data t
  = Some (mkTrackerObj (Some n) (Some c) (Some true)) ->
  (exists before digits rest,
     PokemonTracker.name_var t
     = before ++ "Shiny " ++ n ++ " obtained in " ++ digits ++ rest /\
     one_line n = true /\
     all_chars PyStr.is_digit digits = true /\
     PyStr.int_of_str digits = Some c) \/
  (n = "Unknown" /\ c = PokemonTracker.count_var t /\
   forall before g d rest,
     one_line g = true -> PyStr.is_digit d = true ->
     PokemonTracker.name_var t
     <> before ++ "Shiny " ++ g ++ " obtained in " ++ String d rest).
Proof.
  intros Ho. unfold PokemonTracker.get_data. rewrite Ho.
  destruct (Re.search PokemonTracker.obtained_re (PokemonTracker.name_var t))
    as [m|] eqn:E.
  - destruct (search_obtained_sound _ _ E)
      as [before [g1 [d [ds [rest [-> [Htext [Hline Hd]]]]]]]].
    cbn [Re.group Nat.sub nth].
    destruct (PyStr.int_of_str (String d ds)) as [c'|] eqn:Hint;
      [|discriminate].
    intros [= <- <-]. left. exists before, (String d ds), rest.
    repeat split; assumption.
  - intros [= <- <-]. right. repeat split.
    intros before g d rest Hg Hd Heq.
    apply (search_obtained_complete before g d rest Hg Hd).
    now rewrite <- Heq.
Qed.

Lemma get_data_locked_parse_witness :
  let t := PokemonTracker.__init__ "Foo" 3 true in
  PokemonTracker.obtained_var t = true /\
  PokemonTracker.get_data t
  = Some (mkTrackerObj (Some "Foo") (Some 3) (Some true)) /\
  ((exists before digits rest,
      PokemonTracker.name_var t
      = before ++ "Shiny " ++ "Foo" ++ " obtained in " ++ digits ++ rest /\
      one_line "Foo" = true /\
      all_chars PyStr.is_digit digits = true /\
      PyStr.int_of_str digits = Some 3) \/
   ("Foo" = "Unknown" /\ 3 = PokemonTracker.count_var t /\
    forall before g d rest,
      one_line g = true -> PyStr.is_digit d = true ->
      PokemonTracker.name_var t
      <> before ++ "Shiny " ++ g ++ " obtained in " ++ String d rest)).
Proof.
  cbv zeta. split; [reflexivity|]. split; [reflexivity|].
  apply (get_data_locked_parse (PokemonTracker.__init__ "Foo" 3 true));
    reflexivity.
Defined.

(** X3.  A tracker the program holds is always in a state the constructor
    builds: it equals the tracker built from some name, its count and its
    obtained flag.  So it is either unlocked with its entry and buttons
    enabled, or locked with the announcement as label and its controls
    switched off. *)
Theorem reachable_is_constructed (t : PokemonTracker.t) :
  PokemonTracker.reachable t ->
  exists L,
    t = PokemonTracker.__init__ L (PokemonTracker.count_var t)
          (PokemonTracker.obtained_var t) /\
    (PokemonTracker.obtained_var t = false ->
     L = PokemonTracker.name_var t /\
     PokemonTracker.btn_got_it t = normal) /\
    (PokemonTracker.obtained_var t = true ->
     PokemonTracker.name_var t
     = PokemonTracker.name_var
         (PokemonTracker.lock_as_obtained
            (PokemonTracker.__init__ L (PokemonTracker.count_var t) false))).
Proof.
  intros Hr. destruct (reachable_constructed t Hr) as [L [n [o ->]]].
  exists L. destruct o; repeat split; try discriminate; reflexivity.
Qed.

Lemma reachable_is_constructed_witness :
  let t := PokemonTracker.handle (PokemonTracker.type_name "Eevee")
             (PokemonTracker.__init__ "New Pokemon" 0 false) in
  PokemonTracker.reachable t /\
  exists L,
    t = PokemonTracker.__init__ L (PokemonTracker.count_var t)
          (PokemonTracker.obtained_var t) /\
    (PokemonTracker.obtained_var t = false ->
     L = PokemonTracker.name_var t /\
     PokemonTracker.btn_got_it t = normal) /\
    (PokemonTracker.obtained_var t = true ->
     PokemonTracker.name_var t
     = PokemonTracker.name_var
         (PokemonTracker.lock_as_obtained
            (PokemonTracker.__init__ L (PokemonTracker.count_var t) false))).
Proof.
  cbv zeta.
  assert (Hr : PokemonTracker.reachable
                 (PokemonTracker.handle (PokemonTracker.type_name "Eevee")
                    (PokemonTracker.__init__ "New Pokemon" 0 false)))
    by (apply PokemonTracker.reach_event, PokemonTracker.reach_init).
  split; [exact Hr|].
  exact (reachable_is_constructed _ Hr).
Defined.

(** X4.  On an unlocked tracker the program holds, whose name has no line
    feed and whose count is not negative, pressing "Got it!" and saving
    gives the name and the count the tracker had, with the obtained
    flag. *)
Theorem got_it_then_save (t : PokemonTracker.t) :
  PokemonTracker.reachable t ->
  PokemonTracker.obtained_var t = false ->
  one_line (PokemonTracker.name_var t) = true ->
  0 <= PokemonTracker.count_var t ->
  PokemonTracker.get_data
    (PokemonTracker.handle PokemonTracker.press_got_it t)
  = Some (mkTrackerObj (Some (PokemonTracker.name_var t))
            (Some (PokemonTracker.count_var t)) (Some true)).
Proof.
  intros Hr Ho Hline Hpos.
  destruct (reachable_constructed t Hr) as [L [n [o ->]]].
  destruct o; [discriminate|].
  change (PokemonTracker.handle PokemonTracker.press_got_it
            (PokemonTracker.__init__ L n false))
    with (PokemonTracker.mark_obtained (PokemonTracker.__init__ L n false)).
  now apply lock_then_get_data.
Qed.

Lemma got_it_then_save_witness :
  let t := PokemonTracker.handle PokemonTracker.press_increment
             (PokemonTracker.__init__ "Eevee" 41 false) in
  PokemonTracker.reachable t /\
  PokemonTracker.obtained_var t = false /\
  one_line (PokemonTracker.name_var t) = true /\
  0 <= PokemonTracker.count_var t /\
  PokemonTracker.get_data
    (PokemonTracker.handle PokemonTracker.press_got_it t)
  = Some (mkTrackerObj (Some "Eevee") (Some 42) (Some true)).
Proof.
  cbv zeta.
  assert (Hr : PokemonTracker.reachable
                 (PokemonTracker.handle PokemonTracker.press_increment
                    (PokemonTracker.__init__ "Eevee" 41 false)))
    by (apply PokemonTracker.reach_event, PokemonTracker.reach_init).
  split; [exact Hr|]. split; [reflexivity|]. split; [reflexivity|].
  split; [cbn; lia|].
  apply (got_it_then_save _ Hr); [reflexivity | reflexivity | cbn; lia].
Defined.

(** X5.  No sequence of user events clears the obtained flag of a tracker,
    and none makes a count negative that was not. *)
Theorem events_keep_flag_and_sign (es : list PokemonTracker.event)
    (t : PokemonTracker.t) :
  (PokemonTracker.obtained_var t = true ->
   PokemonTracker.obtained_var (run_events es t) = true) /\
  (0 <= PokemonTracker.count_var t ->
   0 <= PokemonTracker.count_var (run_events es t)).
Proof.
  revert t. induction es as [|e es IH]; intros t; [split; trivial|].
  cbn [run_events fold_left].
  destruct (IH (PokemonTracker.handle e t)) as [Hflag Hsign].
  split; intros H.
  - now apply Hflag, handle_keeps_flag.
  - now apply Hsign, handle_keeps_sign.
Qed.


(** X7.  A document the program saved is returned unchanged when it is
    loaded and saved again, provided the obtained trackers of the tab had
    no negative count: whatever a save loses, it loses once. *)
Theorem saved_document_is_stable (tab : PokemonTab.t) (d : tab_obj) :
  (forall t, In t (PokemonTab.trackers tab) ->
             PokemonTracker.obtained_var t = true ->
             0 <= PokemonTracker.count_var t) ->
  serialize tab = Some d ->
  serialize (deserialize d) = Some d.
Proof.
  intros Hpos Hsave. unfold serialize, PokemonTab.get_data in Hsave.
  destruct (map_raise PokemonTracker.get_data (PokemonTab.trackers tab))
    as [l|] eqn:Hl; [|discriminate].
  injection Hsave as <-. rewrite deserialize_shape.
  unfold serialize, PokemonTab.get_data.
  cbn [PokemonTab.trackers PokemonTab.tab_name].
  rewrite map_raise_inverse; [reflexivity|].
  apply Forall_forall. intros r Hr.
  destruct (map_raise_in _ _ _ Hl r Hr) as [t [Ht Hget]].
  apply (get_data_fixed t); [now apply Hpos | exact Hget].
Qed.

Lemma saved_document_is_stable_witness :
  let tab :=
    PokemonTab.mk "Eggs"
      [PokemonTracker.__init__ ("a" ++ String PyStr.LF "b") 3 true;
       PokemonTracker.__init__ "Eevee" 7 false] in
  let d :=
    mkTabObj (Some "Eggs")
      (Some [mkTrackerObj (Some "Unknown") (Some 3) (Some true);
             mkTrackerObj (Some "Eevee") (Some 7) (Some false)]) in
  (forall t, In t (PokemonTab.trackers tab) ->
             PokemonTracker.obtained_var t = true ->
             0 <= PokemonTracker.count_var t) /\
  serialize tab = Some d /\
  serialize (deserialize d) = Some d.
Proof.
  cbv zeta.
  assert (Hpos : forall t,
             In t (PokemonTab.trackers
                     (PokemonTab.mk "Eggs"
                        [PokemonTracker.__init__
                           ("a" ++ String PyStr.LF "b") 3 true;
                         PokemonTracker.__init__ "Eevee" 7 false])) ->
             PokemonTracker.obtained_var t = true ->
             0 <= PokemonTracker.count_var t).
  { intros t [<-|[<-|[]]] _; cbn; lia. }
  split; [exact Hpos|]. split; [reflexivity|].
  exact (saved_document_is_stable _ _ Hpos eq_refl).
Defined.

(** X8.  Saving a tab and loading the document gives the tab back, with
    every tracker in the same state, when each tracker is as the
    constructor leaves it from a count that is not negative and, if it is
    obtained, from a name without line feed. *)
Theorem deserialize_serialize (tab : PokemonTab.t) :
  Forall kept_exactly (PokemonTab.trackers tab) ->
  exists d, serialize tab = Some d /\ deserialize d = tab.
Proof.
  intros Hkept. destruct (kept_exactly_all _ Hkept) as [l [Hl Hr]].
  exists (mkTabObj (Some (PokemonTab.tab_name tab)) (Some l)).
  split.
  - unfold serialize, PokemonTab.get_data. now rewrite Hl.
  - rewrite deserialize_shape, Hr. now destruct tab.
Qed.

Lemma deserialize_serialize_witness :
  let tab :=
    PokemonTab.mk "Eggs"
      [PokemonTracker.__init__ "Foo" 3 true;
       PokemonTracker.__init__ "Eevee" 7 false] in
  Forall kept_exactly (PokemonTab.trackers tab) /\
  exists d, serialize tab = Some d /\ deserialize d = tab.
Proof.
  cbv zeta.
  assert (Hkept : Forall kept_exactly
                    (PokemonTab.trackers
                       (PokemonTab.mk "Eggs"
                          [PokemonTracker.__init__ "Foo" 3 true;
                           PokemonTracker.__init__ "Eevee" 7 false]))).
  { constructor; [|constructor; [|constructor]].
    - exists "Foo", 3, true.
      split; [reflexivity|]. split; [lia | reflexivity].
    - exists "Eevee", 7, false.
      split; [reflexivity|]. split; [lia | discriminate]. }
  split; [exact Hkept|].
  exact (deserialize_serialize _ Hkept).
Defined.





(** X13.  The file of every tab is an entry of the save directory itself,
    named by the key with ".json" after it, and the startup scan accepts
    that name: what the program writes, it reads at the next start. *)
Theorem saved_file_is_scanned (tab_name : string) :
  App.entry_of (App._get_filename_for_tab tab_name)
  = Some (App.safe_name tab_name ++ ".json") /\
  PyStr.endswith ".json" (App.safe_name tab_name ++ ".json") = true /\
  App.os_path_join App.SAVE_DIRECTORY (App.safe_name tab_name ++ ".json")
  = App._get_filename_for_tab tab_name.
Proof.
  split; [apply entry_of_filename|].
  split; [apply endswith_app | reflexivity].
Qed.

(** X14.  Loading a document whose tab name is already open adds nothing:
    the notebook is as it was, the first open tab of that name becomes the
    current one, and the user is told it is already open. *)
Theorem load_already_open (app : App.t) (data : tab_obj) :
  In (dict_get (j_tab_name data) "Untitled")
     (map PokemonTab.tab_name (App.notebook app)) ->
  exists i tab,
    App.load_tab_from_file app (Some (Some data))
    = (App.mk (App.notebook app) (Some i),
       App.already_open (dict_get (j_tab_name data) "Untitled")) /\
    nth_error (App.notebook app) i = Some tab /\
    PokemonTab.tab_name tab = dict_get (j_tab_name data) "Untitled" /\
    forall j tab', (j < i)%nat -> nth_error (App.notebook app) j = Some tab' ->
                   PokemonTab.tab_name tab'
                   <> dict_get (j_tab_name data) "Untitled".
Proof.
  intros Hin. unfold App.load_tab_from_file.
  destruct (App.find_open (dict_get (j_tab_name data) "Untitled")
              (App.notebook app) 0) as [i|] eqn:E.
  - destruct (find_open_some _ _ _ _ E) as [j [tab [-> [Hnth [Hname Hfirst]]]]].
    exists j, tab. repeat split; assumption.
  - apply find_open_none in E. contradiction.
Qed.

Lemma load_already_open_witness :
  let app := App.mk [PokemonTab.mk "Glazed" []; PokemonTab.mk "Untitled" []]
               (Some 0%nat) in
  let data := mkTabObj None (Some [mkTrackerObj (Some "Eevee") None None]) in
  In (dict_get (j_tab_name data) "Untitled")
     (map PokemonTab.tab_name (App.notebook app)) /\
  exists i tab,
    App.load_tab_from_file app (Some (Some data))
    = (App.mk (App.notebook app) (Some i),
       App.already_open (dict_get (j_tab_name data) "Untitled")) /\
    nth_error (App.notebook app) i = Some tab /\
    PokemonTab.tab_name tab = dict_get (j_tab_name data) "Untitled" /\
    forall j tab', (j < i)%nat -> nth_error (App.notebook app) j = Some tab' ->
                   PokemonTab.tab_name tab'
                   <> dict_get (j_tab_name data) "Untitled".
Proof.
  cbv zeta. split; [right; left; reflexivity|].
  apply (load_already_open
           (App.mk [PokemonTab.mk "Glazed" []; PokemonTab.mk "Untitled" []]
              (Some 0%nat))
           (mkTabObj None (Some [mkTrackerObj (Some "Eevee") None None]))).
  right; left; reflexivity.
Defined.

(** X15.  "Load Tab" keeps the names of the open tabs distinct: if no two
    open tabs have the same name before, none have after, whatever the
    dialog and the file give. *)
Theorem load_keeps_names_distinct (app : App.t)
    (picked : option (option tab_obj)) :
  NoDup (map PokemonTab.tab_name (App.notebook app)) ->
  NoDup (map PokemonTab.tab_name
           (App.notebook (fst (App.load_tab_from_file app picked)))).
Proof.
  intros Hnd. destruct picked as [[data|]|]; [|exact Hnd | exact Hnd].
  unfold App.load_tab_from_file.
  destruct (App.find_open (dict_get (j_tab_name data) "Untitled")
              (App.notebook app) 0) as [i|] eqn:E; [exact Hnd|].
  apply find_open_none in E.
  cbn [fst]. rewrite create_notebook, create_tab. cbn [App.notebook].
  rewrite map_app. apply NoDup_app; [exact Hnd | |].
  - constructor; [intros [] | constructor].
  - intros a Ha [<-|[]]. now apply E.
Qed.

Lemma load_keeps_names_distinct_witness :
  let app := App.mk [PokemonTab.mk "Glazed" []] (Some 0%nat) in
  let picked := Some (Some (mkTabObj (Some "Eggs") None)) in
  NoDup (map PokemonTab.tab_name (App.notebook app)) /\
  NoDup (map PokemonTab.tab_name
           (App.notebook (fst (App.load_tab_from_file app picked)))).
Proof.
  cbv zeta.
  assert (Hnd : NoDup (map PokemonTab.tab_name
                         (App.notebook
                            (App.mk [PokemonTab.mk "Glazed" []] (Some 0%nat)))))
    by (constructor; [intros [] | constructor]).
  split; [exact Hnd|].
  exact (load_keeps_names_distinct _ _ Hnd).
Defined.

(** X16.  "New Tab" with a name that is not empty always adds an empty tab
    of that name at the end and makes it current; it does not look at the
    names that are open, so a name that is open is then open twice.  A
    cancelled dialog and an empty name change nothing. *)
Theorem add_tab_allows_duplicates (app : App.t) (name : string) :
  name <> "" ->
  App.notebook (App.add_tab app (Some name))
  = (App.notebook app ++ [PokemonTab.mk name []])%list /\
  App.selected (App.add_tab app (Some name))
  = Some (List.length (App.notebook app)) /\
  (In name (map PokemonTab.tab_name (App.notebook app)) ->
   ~ NoDup (map PokemonTab.tab_name
              (App.notebook (App.add_tab app (Some name))))) /\
  App.add_tab app None = app /\
  App.add_tab app (Some "") = app.
Proof.
  intros Hname. unfold App.add_tab.
  apply String.eqb_neq in Hname. rewrite Hname.
  split; [reflexivity|]. split; [reflexivity|].
  split; [|split; reflexivity].
  intros Hin Hnd. cbn [fst App._create_and_add_tab App.notebook] in Hnd.
  rewrite map_app in Hnd. cbn [map PokemonTab.tab_name PokemonTab.__init__]
    in Hnd.
  apply NoDup_remove_2 in Hnd. apply Hnd.
  rewrite app_nil_r. exact Hin.
Qed.

Lemma add_tab_allows_duplicates_witness :
  let app := App.mk [PokemonTab.mk "Glazed" []] (Some 0%nat) in
  "Glazed" <> "" /\
  (App.notebook (App.add_tab app (Some "Glazed"))
   = (App.notebook app ++ [PokemonTab.mk "Glazed" []])%list /\
   App.selected (App.add_tab app (Some "Glazed"))
   = Some (List.length (App.notebook app)) /\
   (In "Glazed" (map PokemonTab.tab_name (App.notebook app)) ->
    ~ NoDup (map PokemonTab.tab_name
               (App.notebook (App.add_tab app (Some "Glazed"))))) /\
   App.add_tab app None = app /\
   App.add_tab app (Some "") = app).
Proof.
  cbv zeta. split; [discriminate|].
  apply (add_tab_allows_duplicates
           (App.mk [PokemonTab.mk "Glazed" []] (Some 0%nat)) "Glazed").
  discriminate.
Defined.

(** X17.  The current tab stays a tab of the notebook: if it is one, it
    still is after "New Tab", after "Load Tab" and after the startup scan,
    whatever they are given. *)
Theorem selection_stays_valid (app : App.t) (answer : option string)
    (picked : option (option tab_obj)) (listing : App.disk) :
  selection_valid app ->
  selection_valid (App.add_tab app answer) /\
  selection_valid (fst (App.load_tab_from_file app picked)) /\
  selection_valid (fst (App.load_all_tabs_on_startup app listing)).
Proof.
  intros Hv. split; [|split].
  - destruct answer as [name|]; [|exact Hv]. unfold App.add_tab.
    destruct (String.eqb name ""); [exact Hv|].
    rewrite create_notebook. unfold selection_valid.
    cbn [App.selected App.notebook]. rewrite length_app. cbn. lia.
  - destruct picked as [[data|]|]; try exact Hv.
    unfold App.load_tab_from_file.
    destruct (App.find_open (dict_get (j_tab_name data) "Untitled")
                (App.notebook app) 0) as [i|] eqn:E.
    + destruct (find_open_some _ _ _ _ E) as [j [tab [-> [Hnth _]]]].
      unfold selection_valid. cbn [fst App.selected App.notebook Nat.add].
      apply nth_error_Some. rewrite Hnth. discriminate.
    + cbn [fst]. rewrite create_notebook. unfold selection_valid.
      cbn [App.selected App.notebook]. rewrite length_app. cbn. lia.
  - rewrite startup_scan. unfold selection_valid.
    cbn [fst App.selected App.notebook].
    destruct (startup_tabs listing) as [|x more].
    + rewrite app_nil_r. exact Hv.
    + rewrite length_app. cbn. lia.
Qed.

Lemma selection_stays_valid_witness :
  let app := App.mk [PokemonTab.mk "Glazed" []] (Some 0%nat) in
  selection_valid app /\
  (selection_valid (App.add_tab app (Some "Eggs")) /\
   selection_valid
     (fst (App.load_tab_from_file app
             (Some (Some (mkTabObj (Some "Glazed") None))))) /\
   selection_valid
     (fst (App.load_all_tabs_on_startup app
             [("eggs.json", Some (mkTabObj None None))]))).
Proof.
  cbv zeta.
  assert (Hv : selection_valid
                 (App.mk [PokemonTab.mk "Glazed" []] (Some 0%nat)))
    by (cbn; lia).
  split; [exact Hv|].
  exact (selection_stays_valid _ (Some "Eggs")
           (Some (Some (mkTabObj (Some "Glazed") None)))
           [("eggs.json", Some (mkTabObj None None))] Hv).
Defined.

(** X18.  The startup scan opens one tab for every file of the directory
    whose name ends in ".json" and that parses, in the order of the
    directory and after the tabs already open; it reports the path of
    every ".json" file that does not parse and goes on; it ignores every
    other file.  The last tab opened is the current one.  So each ".json"
    file gives either a tab or a report, never both and never none. *)
Theorem startup_loads_in_order (app : App.t) (listing : App.disk) :
  App.load_all_tabs_on_startup app listing
  = (App.mk (App.notebook app ++ startup_tabs listing)
       match startup_tabs listing with
       | [] => App.selected app
       | _ :: more =>
           Some (List.length (App.notebook app) + List.length more)%nat
       end,
     startup_failures listing) /\
  (List.length (startup_tabs listing)
   + List.length (startup_failures listing))%nat
  = List.length (filter (fun e => PyStr.endswith ".json" (fst e)) listing).
Proof.
  split; [apply startup_scan|].
  induction listing as [|[f content] rest IH]; [reflexivity|].
  cbn [startup_tabs startup_failures filter fst].
  destruct content; destruct (PyStr.endswith ".json" f); cbn [List.length];
    lia.
Qed.

Lemma save_selected (app : App.t) (d : App.disk) (refuses : string -> bool)
    (i : nat) (tab : PokemonTab.t) (data : tab_obj) :
  App.selected app = Some i ->
  nth_error (App.notebook app) i = Some tab ->
  refuses (App._get_filename_for_tab (PokemonTab.tab_name tab)) = false ->
  serialize tab = Some data ->
  App.save_current_tab app d refuses
  = (App.disk_write (entry_name tab) (Some data) d,
     App.saved (PokemonTab.tab_name tab)).
Proof.
  intros Hsel Hnth Hok Hdata. unfold App.save_current_tab.
  rewrite Hsel, Hnth. unfold serialize in Hdata.
  now rewrite Hdata, write_json_tab, Hok.
Qed.

Lemma exists_tab_file (d : App.disk) (tab : PokemonTab.t) :
  App.os_path_exists d (App._get_filename_for_tab (PokemonTab.tab_name tab))
  = dict_has (App.disk_lookup (entry_name tab) d).
Proof.
  unfold App.os_path_exists. now rewrite entry_of_filename.
Qed.

Lemma remove_tab_file (d : App.disk) (tab : PokemonTab.t) :
  App.os_remove d (App._get_filename_for_tab (PokemonTab.tab_name tab))
  = App.disk_remove (entry_name tab) d.
Proof.
  unfold App.os_remove. now rewrite entry_of_filename.
Qed.



(** X20.  Loading a well-formed document through "Load Tab" (its name not
    yet open, the names of its obtained trackers without line feed) and
    then pressing "Save Current Tab" writes that very document to the file
    of its tab name. *)
Theorem load_then_save_writes_document (app : App.t) (doc : tab_obj)
    (name : string) (d : App.disk) (refuses : string -> bool) :
  well_formed doc ->
  j_tab_name doc = Some name ->
  (forall r n, In r (dict_get (j_trackers doc) []) ->
               j_obtained r = Some true -> j_name r = Some n ->
               one_line n = true) ->
  ~ In name (map PokemonTab.tab_name (App.notebook app)) ->
  refuses (App._get_filename_for_tab name) = false ->
  App.save_current_tab
    (fst (App.load_tab_from_file app (Some (Some doc)))) d refuses
  = (App.disk_write (App.safe_name name ++ ".json") (Some doc) d,
     App.saved name).
Proof.
  intros Hwf Hname Hlines Hopen Hok.
  unfold App.load_tab_from_file. rewrite Hname. cbn [dict_get].
  apply find_open_none with (k := 0%nat) in Hopen. rewrite Hopen.
  cbn [fst]. rewrite create_notebook, create_tab.
  pose proof (serialize_deserialize doc Hwf Hlines) as Hround.
  unfold deserialize in Hround. rewrite create_tab, Hname in Hround.
  cbn [dict_get] in Hround.
  apply (save_selected _ d refuses (List.length (App.notebook app))
           (PokemonTab.mk name (map restored (dict_get (j_trackers doc) [])))
           doc).
  - reflexivity.
  - cbn [App.notebook]. rewrite nth_error_app2 by lia.
    now rewrite Nat.sub_diag.
  - exact Hok.
  - exact Hround.
Qed.

Lemma load_then_save_writes_document_witness :
  let doc :=
    mkTabObj (Some "Eggs")
      (Some [mkTrackerObj (Some "Foo") (Some 3) (Some true)]) in
  let app := App.mk [PokemonTab.mk "Glazed" []] (Some 0%nat) in
  App.save_current_tab
    (fst (App.load_tab_from_file app (Some (Some doc)))) [] (fun _ => false)
  = ([("eggs.json", Some doc)], App.saved "Eggs").
Proof.
  cbv zeta.
  refine (load_then_save_writes_document
            (App.mk [PokemonTab.mk "Glazed" []] (Some 0%nat))
            (mkTabObj (Some "Eggs")
               (Some [mkTrackerObj (Some "Foo") (Some 3) (Some true)]))
            "Eggs" [] (fun _ => false) _ eq_refl _ _ eq_refl).
  - split; [now eexists|]. eexists; split; [reflexivity|].
    constructor; [|constructor].
    split; [now eexists|]. split; [|now eexists].
    eexists; split; [reflexivity | lia].
  - intros r n [<-|[]] _ [= <-]. reflexivity.
  - intros [H|[]]. discriminate H.
Defined.

(** X21.  A tab saved with "Save Current Tab" is opened again by the next
    start of the program, in the same state, when each of its trackers is
    as the constructor leaves it from a count that is not negative and, if
    obtained, from a name without line feed. *)
Theorem save_then_restart (app : App.t) (d : App.disk)
    (refuses : string -> bool) (i : nat) (tab : PokemonTab.t) :
  App.selected app = Some i ->
  nth_error (App.notebook app) i = Some tab ->
  refuses (App._get_filename_for_tab (PokemonTab.tab_name tab)) = false ->
  Forall kept_exactly (PokemonTab.trackers tab) ->
  In tab
     (App.notebook
        (fst (App.__init__ (fst (App.save_current_tab app d refuses))))).
Proof.
  intros Hsel Hnth Hok Hkept.
  destruct (kept_exactly_all _ Hkept) as [l [Hl Hr]].
  assert (Hdata : serialize tab
                  = Some (mkTabObj (Some (PokemonTab.tab_name tab)) (Some l))).
  { unfold serialize, PokemonTab.get_data. now rewrite Hl. }
  rewrite (save_selected app d refuses i tab _ Hsel Hnth Hok Hdata).
  cbn [fst]. unfold App.__init__. rewrite startup_scan.
  cbn [fst App.notebook App.empty List.app].
  replace tab
    with (startup_tab (mkTabObj (Some (PokemonTab.tab_name tab)) (Some l)))
    at 1.
  - apply (in_startup_tabs _ (entry_name tab)); [apply in_write|].
    apply endswith_app.
  - unfold startup_tab. cbn [j_tab_name j_trackers dict_get].
    rewrite Hr. now destruct tab.
Qed.

Lemma save_then_restart_witness :
  let tab := PokemonTab.mk "Pokemon Glazed!"
               [PokemonTracker.__init__ "Foo" 3 true] in
  let app := App.mk [PokemonTab.mk "Eggs" []; tab] (Some 1%nat) in
  let d := [("notes.txt", None); ("old.json", None)] in
  In tab
     (App.notebook
        (fst (App.__init__
                (fst (App.save_current_tab app d (fun _ => false)))))).
Proof.
  cbv zeta.
  refine (save_then_restart
            (App.mk [PokemonTab.mk "Eggs" [];
                     PokemonTab.mk "Pokemon Glazed!"
                       [PokemonTracker.__init__ "Foo" 3 true]]
               (Some 1%nat))
            [("notes.txt", None); ("old.json", None)] (fun _ => false)
            1%nat _ eq_refl eq_refl eq_refl _).
  constructor; [|constructor].
  exists "Foo", 3, true. split; [reflexivity|]. split; [lia | reflexivity].
Defined.





(** X24.  "Remove Current Tab", once confirmed, takes the current tab out
    of the notebook and leaves the other tabs in their order, also when the
    file cannot be deleted; when the system does not refuse, the file named
    by the tab's key is gone afterwards; every other file is as it was.
    When the user declines, nothing changes. *)
Theorem remove_forgets_tab_and_file (app : App.t) (d : App.disk)
    (refuses : string -> bool) (then_selected : option nat) (i : nat)
    (tab : PokemonTab.t) :
  App.selected app = Some i ->
  nth_error (App.notebook app) i = Some tab ->
  let after := App.remove_current_tab app d true refuses then_selected in
  App.notebook (fst (fst after))
  = (firstn i (App.notebook app) ++ skipn (S i) (App.notebook app))%list /\
  S (List.length (App.notebook (fst (fst after))))
  = List.length (App.notebook app) /\
  (refuses (App._get_filename_for_tab (PokemonTab.tab_name tab)) = false ->
   App.disk_lookup (entry_name tab) (snd (fst after)) = None) /\
  (forall e, e <> entry_name tab ->
     App.disk_lookup e (snd (fst after)) = App.disk_lookup e d) /\
  App.remove_current_tab app d false refuses then_selected
  = (app, d, App.remove_declined).
Proof.
  intros Hsel Hnth. cbv zeta. unfold App.remove_current_tab.
  rewrite Hsel, Hnth, exists_tab_file, remove_tab_file.
  assert (Hlen : S (List.length (firstn i (App.notebook app)
                                   ++ skipn (S i) (App.notebook app)))
                 = List.length (App.notebook app)).
  { assert (Hi : (i < List.length (App.notebook app))%nat)
      by (apply nth_error_Some; rewrite Hnth; discriminate).
    rewrite length_app, length_firstn, length_skipn. lia. }
  destruct (App.disk_lookup (entry_name tab) d) as [c|] eqn:E;
    cbn [dict_has].
  - destruct (refuses _) eqn:R; cbn [fst snd App.notebook].
    + split; [reflexivity|]. split; [exact Hlen|].
      split; [discriminate|]. split; [reflexivity | reflexivity].
    + split; [reflexivity|]. split; [exact Hlen|].
      split; [intros _; apply lookup_remove_same|].
      split; [|reflexivity].
      intros e He. now apply lookup_remove_other.
  - cbn [fst snd App.notebook].
    split; [reflexivity|]. split; [exact Hlen|].
    split; [intros _; exact E|]. split; reflexivity.
Qed.

Lemma remove_forgets_tab_and_file_witness :
  let a := PokemonTab.mk "A" [] in
  let b := PokemonTab.mk "B" [] in
  let app := App.mk [a; b] (Some 0%nat) in
  let d := [("a.json", None); ("b.json", None)] in
  App.remove_current_tab app d true (fun _ => false) (Some 0%nat)
  = (App.mk [b] (Some 0%nat), [("b.json", None)], App.removed) /\
  App.disk_lookup "a.json"
    (snd (fst (App.remove_current_tab app d true (fun _ => false)
                 (Some 0%nat)))) = None.
Proof.
  cbv zeta. split; [reflexivity|].
  refine (proj1 (proj2 (proj2
            (remove_forgets_tab_and_file
               (App.mk [PokemonTab.mk "A" []; PokemonTab.mk "B" []]
                  (Some 0%nat))
               [("a.json", None); ("b.json", None)] (fun _ => false)
               (Some 0%nat) 0%nat (PokemonTab.mk "A" []) eq_refl eq_refl)))
            eq_refl).
Defined.

(** X25.  Saving the current tab into a directory that has no file of its
    key, and then removing the tab, leaves the directory exactly as it was
    before the save. *)
Theorem save_then_remove_restores_directory (app : App.t) (d : App.disk)
    (refuses_write refuses_remove : string -> bool)
    (then_selected : option nat) (i : nat) (tab : PokemonTab.t) :
  App.selected app = Some i ->
  nth_error (App.notebook app) i = Some tab ->
  App.disk_lookup (entry_name tab) d = None ->
  refuses_write (App._get_filename_for_tab (PokemonTab.tab_name tab))
  = false ->
  refuses_remove (App._get_filename_for_tab (PokemonTab.tab_name tab))
  = false ->
  snd (fst (App.remove_current_tab app
              (fst (App.save_current_tab app d refuses_write))
              true refuses_remove then_selected))
  = d.
Proof.
  intros Hsel Hnth Habsent Hw Hr.
  destruct (serialize_returns tab) as [l Hl].
  rewrite (save_selected app d refuses_write i tab _ Hsel Hnth Hw Hl).
  cbn [fst]. unfold App.remove_current_tab.
  rewrite Hsel, Hnth, exists_tab_file, remove_tab_file, lookup_write_same.
  cbn [dict_has]. rewrite Hr. cbn [fst snd].
  now apply remove_write_absent.
Qed.

Lemma save_then_remove_restores_directory_witness :
  let tab := PokemonTab.mk "Eggs" [PokemonTracker.__init__ "Eevee" 7 false] in
  let app := App.mk [tab] (Some 0%nat) in
  let d := [("glazed.json", None)] in
  snd (fst (App.remove_current_tab app
              (fst (App.save_current_tab app d (fun _ => false)))
              true (fun _ => false) None))
  = d.
Proof.
  cbv zeta.
  exact (save_then_remove_restores_directory
           (App.mk [PokemonTab.mk "Eggs"
                      [PokemonTracker.__init__ "Eevee" 7 false]]
              (Some 0%nat))
           [("glazed.json", None)] (fun _ => false) (fun _ => false) None
           0%nat _ eq_refl eq_refl eq_refl eq_refl eq_refl).
Defined.
